(** * The DID-method REST operations of trustbloc-did-method

    A shallow embedding of [pkg/restapi/didmethod/operation/operations.go]:
    the registration handler ([registerDIDHandler] with [getKey] and
    [createKeys]), the resolution handler and the mode router
    ([GetRESTHandlers]), followed by the properties the specification
    states about them.

    Go strings are [string], [[]byte] is [list byte], a Go
    [map[string][]byte] is a [gmap string (list byte)], and a Go function
    returning [(T, error)] returns a [result T].  The libraries the handler
    calls (encoding/base64, crypto/elliptic, jwksupport, did, base58, the
    VDR backend) are collaborators: they are the methods of two classes and
    every property is proved for all their implementations.  Logging is
    not modelled. *)

From Stdlib Require Import ZArith NArith Ascii String List Bool Permutation.
From Stdlib.Strings Require Import Byte.
From stdpp Require Import base option strings list gmap fin_maps.

Local Open Scope string_scope.
Local Open Scope list_scope.

Abbreviation bytes := (list byte).

(** ** Fallible results *)

(** A Go [(T, error)] return; the error is kept as its [Error()] text. *)
Inductive result (A : Type) : Type :=
| Ok (a : A)
| Err (msg : string).
Arguments Ok {A} a.
Arguments Err {A} msg.

#[global] Instance result_ret : MRet result := fun _ a => Ok a.
#[global] Instance result_bind : MBind result := fun _ _ f r =>
  match r with
  | Ok a => f a
  | Err e => Err e
  end.

Definition is_Ok {A} (r : result A) : Prop := exists a, r = Ok a.

(** ** The request and response models (package [operation]) *)

(** Modelled from the spec: the key-type constants [Ed25519KeyType] and
    [P256KeyType] are declared in the package's models file, which is not
    among the sources; the specification names the two types [Ed25519]
    and [P-256]. *)
Definition Ed25519KeyType : string := "Ed25519".
Definition P256KeyType : string := "P-256".

(** Modelled from the spec: the structure of a submitted key entry, from
    the same models file.  The fields are the ones the handler reads. *)
Module PublicKey.
Record t : Type := mk {
  ID : string;
  Type' : string;
  Purposes : list string;
  Value : string;
  KeyType : string;
  Recovery : bool;
  Update : bool
}.
End PublicKey.

(** Modelled from the spec: the structure of a submitted service, from the
    same models file. *)
Module Service.
Record t : Type := mk {
  ID : string;
  Type' : string;
  Priority : N;
  RecipientKeys : list string;
  RoutingKeys : list string;
  Endpoint : string
}.
End Service.

(** Modelled from the spec: the document part of a request, from the same
    models file. *)
Module DIDDocument.
Record t : Type := mk {
  PublicKey : list PublicKey.t;
  Service : list Service.t
}.
End DIDDocument.

(** Modelled from the spec: the registration request, from the same
    models file. *)
Module RegisterDIDRequest.
Record t : Type := mk {
  JobID : string;
  DIDDocument : DIDDocument.t
}.
End RegisterDIDRequest.

(** Modelled from the spec: the two terminal states of a registration,
    from the same models file. *)
Inductive RegistrationState : Type :=
| RegistrationStateFinished
| RegistrationStateFailure.

(** Modelled from the spec: an entry of the secret bundle, from the same
    models file. *)
Module Key.
Record t : Type := mk {
  ID : string;
  PublicKeyBase58 : string
}.
End Key.

(** Modelled from the spec: the secret bundle, from the same models file. *)
Module Secret.
Record t : Type := mk { Keys : list Key.t }.
End Secret.

(** Modelled from the spec: the state part of a response, from the same
    models file.  A field the handler leaves out of a literal has its zero
    value. *)
Module DIDState.
Record t : Type := mk {
  Identifier : string;
  Reason : string;
  State : RegistrationState;
  Secret : Secret.t
}.
End DIDState.

(** Modelled from the spec: the registration response, from the same
    models file. *)
Module RegisterResponse.
Record t : Type := mk {
  JobID : string;
  DIDState : DIDState.t
}.
End RegisterResponse.

(** ** Library data: keys, verification methods, documents *)

Inductive Curve : Type := P256.

(** The values [getKey] returns behind [interface{}]: an
    [ed25519.PublicKey] (a byte slice) or a pointer to an
    [ecdsa.PublicKey] whose coordinates are [*big.Int], hence nullable. *)
Inductive PubKey : Type :=
| Ed25519PublicKey (value : bytes)
| ECDSAPublicKey (X Y : option Z) (curve : Curve).

(** The names of the two options of the backend's create call. *)
Module trustbloc.
Inductive OptName : Type := RecoveryPublicKeyOpt | UpdatePublicKeyOpt.
End trustbloc.

(** [vdr.WithOption(name, value)]. *)
Module vdr.
Inductive DIDMethodOption : Type :=
| WithOption (name : trustbloc.OptName) (value : PubKey).
End vdr.

(** The purpose tags of the sidetree document package. *)
Module doc.
Definition KeyPurposeAuthentication : string := "authentication".
Definition KeyPurposeAssertionMethod : string := "assertionMethod".
Definition KeyPurposeKeyAgreement : string := "keyAgreement".
Definition KeyPurposeCapabilityDelegation : string := "capabilityDelegation".
Definition KeyPurposeCapabilityInvocation : string := "capabilityInvocation".
End doc.

(** The document model of the [did] package, over the library's type [VM]
    of verification methods. *)
Module did.
Inductive VerificationRelationship : Type :=
| VerificationRelationshipGeneral
| Authentication
| AssertionMethod
| CapabilityDelegation
| CapabilityInvocation
| KeyAgreement.

(** An entry of a relationship bucket: the verification method it points
    to, the relationship, and whether the method is embedded in the bucket
    or only referenced from it. *)
Module Verification.
Record t (VM : Type) : Type := mk {
  VerificationMethod : VM;
  Relationship : VerificationRelationship;
  Embedded : bool
}.
Arguments mk {VM}.
Arguments VerificationMethod {VM}.
Arguments Relationship {VM}.
Arguments Embedded {VM}.
End Verification.

Definition NewReferencedVerification {VM} (vm : VM) (r : VerificationRelationship)
  : Verification.t VM :=
  Verification.mk vm r false.

Module Service.
Record t : Type := mk {
  ID : string;
  Type' : string;
  Priority : N;
  RecipientKeys : list string;
  RoutingKeys : list string;
  ServiceEndpoint : string
}.
End Service.

Module Doc.
Record t (VM : Type) : Type := mk {
  ID : string;
  VerificationMethod : list VM;
  Service : list Service.t;
  Authentication : list (Verification.t VM);
  AssertionMethod : list (Verification.t VM);
  CapabilityDelegation : list (Verification.t VM);
  CapabilityInvocation : list (Verification.t VM);
  KeyAgreement : list (Verification.t VM)
}.
Arguments mk {VM}.
Arguments ID {VM}.
Arguments VerificationMethod {VM}.
Arguments Service {VM}.
Arguments Authentication {VM}.
Arguments AssertionMethod {VM}.
Arguments CapabilityDelegation {VM}.
Arguments CapabilityInvocation {VM}.
Arguments KeyAgreement {VM}.

(** The zero value [did.Doc{}]. *)
Definition zero {VM} : t VM := mk "" [] [] [] [] [] [] [].

(** The bucket of a relationship. *)
Definition bucket {VM} (r : VerificationRelationship) (d : t VM)
  : list (Verification.t VM) :=
  match r with
  | did.Authentication => Authentication d
  | did.AssertionMethod => AssertionMethod d
  | did.CapabilityDelegation => CapabilityDelegation d
  | did.CapabilityInvocation => CapabilityInvocation d
  | did.KeyAgreement => KeyAgreement d
  | VerificationRelationshipGeneral => []
  end.
End Doc.

Module DocResolution.
Record t (VM : Type) : Type := mk { DIDDocument : Doc.t VM }.
Arguments mk {VM}.
Arguments DIDDocument {VM}.
End DocResolution.
End did.

(** ** The collaborators *)

(** The library functions the handlers call.  [JWK] and [VM] are the
    library's JSON-web-key and verification-method types.
    [elliptic_Unmarshal] returns two [*big.Int], both nil when the bytes are
    not a point of the curve.  [rangeOrder] is the order in which a [range]
    loop of the Go runtime visits the entries of a map: some order of the
    map's entries, each visited once. *)
Class GoLibs (JWK VM : Type) : Type := {
  base64_DecodeString : string -> result bytes;
  elliptic_Unmarshal : Curve -> bytes -> option Z * option Z;
  jwksupport_JWKFromKey : PubKey -> result JWK;
  did_NewVerificationMethodFromJWK : string -> string -> string -> JWK -> result VM;
  base58_Encode : bytes -> string;
  DocResolution_JSONBytes : did.DocResolution.t VM -> result bytes;
  rangeOrder : gmap string bytes -> list (string * bytes);
  rangeOrder_perm : forall m, rangeOrder m ≡ₚ map_to_list m
}.

(** The [vdr.VDR] interface, of which the handlers use two methods. *)
Module VDR.
Record t (VM : Type) : Type := mk {
  Create : did.Doc.t VM -> list vdr.DIDMethodOption -> result (did.DocResolution.t VM);
  Read : string -> result (did.DocResolution.t VM)
}.
Arguments mk {VM}.
Arguments Create {VM}.
Arguments Read {VM}.

(** The calls a handler made to the backend, in order. *)
Inductive Call (VM : Type) : Type :=
| CreateCall (didDoc : did.Doc.t VM) (opts : list vdr.DIDMethodOption)
| ReadCall (didID : string).
Arguments CreateCall {VM}.
Arguments ReadCall {VM}.
End VDR.

(** ** The HTTP boundary *)

(** Header keys, as [net/textproto] canonicalises them: a key made of
    token bytes only has its first letter and every letter after a hyphen
    in upper case and its other letters in lower case; a key with any
    other byte is left as it is. *)
Module textproto.
Definition validHeaderFieldByte (c : ascii) : bool :=
  let n := N_of_ascii c in
  ((48 <=? n) && (n <=? 57) || (65 <=? n) && (n <=? 90) || (97 <=? n) && (n <=? 122)
   || existsb (N.eqb n) [33; 35; 36; 37; 38; 39; 42; 43; 45; 46; 94; 95; 96; 124; 126])%N.

Fixpoint canonicalize (upper : bool) (s : string) : string :=
  match s with
  | EmptyString => EmptyString
  | String c rest =>
    let n := N_of_ascii c in
    let c' :=
      if (upper && (97 <=? n) && (n <=? 122))%N then ascii_of_N (n - 32)
      else if (negb upper && (65 <=? n) && (n <=? 90))%N then ascii_of_N (n + 32)
      else c in
    String c' (canonicalize (Ascii.eqb c' "-") rest)
  end.

Definition CanonicalMIMEHeaderKey (s : string) : string :=
  if forallb validHeaderFieldByte (list_ascii_of_string s)
  then canonicalize true s
  else s.
End textproto.

Module http.
Definition StatusOK : nat := 200.
Definition StatusBadRequest : nat := 400.
Definition StatusInternalServerError : nat := 500.
Definition MethodGet : string := "GET".
Definition MethodPost : string := "POST".

(** A request: its body, kept as what [json.Decoder.Decode] makes of it
    (the decoded registration request or the decoder's error), and the
    key/value pairs of its URL query in the order they appear. *)
Record Request : Type := mkRequest {
  Body : result RegisterDIDRequest.t;
  URLQuery : list (string * string)
}.

Inductive Payload : Type :=
| JSON (v : RegisterResponse.t)
| Text (msg : string)
| Raw (b : bytes).

(** A response writer: the status line once it is written, the header
    map, and what was written to the body. *)
Record ResponseWriter : Type := mkResponseWriter {
  status : option nat;
  header : list (string * string);
  body : list Payload
}.

Definition fresh : ResponseWriter := mkResponseWriter None [] [].

(** [WriteHeader]: the first status written stands. *)
Definition WriteHeader (code : nat) (rw : ResponseWriter) : ResponseWriter :=
  match status rw with
  | Some _ => rw
  | None => mkResponseWriter (Some code) (header rw) (body rw)
  end.

(** [Write]: writes the status line with [StatusOK] if none was written
    yet, then the payload. *)
Definition Write (p : Payload) (rw : ResponseWriter) : ResponseWriter :=
  let rw' := WriteHeader StatusOK rw in
  mkResponseWriter (status rw') (header rw') (body rw' ++ [p]).

(** [Header().Set]: the value is stored under the canonical form of the
    key and replaces whatever was stored under it. *)
Definition HeaderSet (k v : string) (rw : ResponseWriter) : ResponseWriter :=
  let k' := textproto.CanonicalMIMEHeaderKey k in
  mkResponseWriter (status rw)
    ((k', v) :: filter (fun kv => negb (String.eqb (fst kv) k')) (header rw))
    (body rw).

(** [URL.Query()[key]]: the values given for [key], and whether there are any. *)
Definition queryValues (key : string) (req : Request) : list string :=
  map snd (filter (fun kv => String.eqb (fst kv) key) (URLQuery req)).
End http.

(** A handler function: from the response writer and the request it is
    given, to the writer as it leaves it and the backend calls it made. *)
Definition HandlerFunc (VM : Type) : Type :=
  http.ResponseWriter -> http.Request -> http.ResponseWriter * list (VDR.Call VM).

(** The [Handler] interface: a path, a method and a handler function. *)
Module Handler.
Record t (VM : Type) : Type := mk {
  Path : string;
  Method : string;
  Handle : HandlerFunc VM
}.
Arguments mk {VM}.
Arguments Path {VM}.
Arguments Method {VM}.
Arguments Handle {VM}.
End Handler.

(** Modelled from the spec: [support.NewHTTPHandler] lives in the
    repository's internal support package, which is not among the
    sources; the specification describes what it builds as the triple of
    the path, the method and the handler it is given. *)
Module support.
Definition NewHTTPHandler {VM} (path method : string) (handle : HandlerFunc VM)
  : Handler.t VM :=
  Handler.mk path method handle.
End support.

(** ** The operations *)

Definition registerBasePath : string := "/1.0".
Definition registerPath : string := registerBasePath +:+ "/register".
Definition resolveDIDEndpoint : string := "/resolveDID".
Definition didLDJson : string := "application/did+ld+json".
Definition invalidRequestErrMsg : string := "invalid request".

Definition registrarMode : string := "registrar".
Definition resolverMode : string := "resolver".
Definition combinedMode : string := "combined".

Module Operation.
Record t (VM : Type) : Type := mk {
  blocVDRI : VDR.t VM;
  blocDomain : string
}.
Arguments mk {VM}.
Arguments blocVDRI {VM}.
Arguments blocDomain {VM}.
End Operation.

(** What the key loop of [registerDIDHandler] carries from one entry to
    the next: the document under construction, the options for the
    backend, and the tracked key bytes. *)
Module Draft.
Record t (VM : Type) : Type := mk {
  didDoc : did.Doc.t VM;
  didMethodOpt : list vdr.DIDMethodOption;
  keysID : gmap string bytes
}.
Arguments mk {VM}.
Arguments didDoc {VM}.
Arguments didMethodOpt {VM}.
Arguments keysID {VM}.

(** The state before the loop: [did.Doc{}], a nil option slice and the
    empty map. *)
Definition init {VM} : t VM := mk did.Doc.zero [] ∅.
End Draft.

Section Operations.
Context {JWK VM : Type} {L : GoLibs JWK VM}.

Definition getKey (keyType : string) (value : bytes) : result PubKey :=
  if String.eqb keyType Ed25519KeyType then
    Ok (Ed25519PublicKey value)
  else if String.eqb keyType P256KeyType then
    let '(x, y) := elliptic_Unmarshal P256 value in
    Ok (ECDSAPublicKey x y P256)
  else
    Err ("invalid key type: " +:+ keyType).

Definition createKeys (keysID : gmap string bytes) (didID : string) : list Key.t :=
  foldl (fun keys kv =>
           keys ++ [Key.mk (didID +:+ "#" +:+ fst kv) (base58_Encode (snd kv))])
        [] (rangeOrder keysID).

(** One turn of the [switch] inside the purposes loop. *)
Definition addPurpose (vm : VM) (p : string) (d : did.Doc.t VM)
  : result (did.Doc.t VM) :=
  let '(did.Doc.mk id vms svc auth am cd ci ka) := d in
  if String.eqb p doc.KeyPurposeAuthentication then
    Ok (did.Doc.mk id vms svc
          (auth ++ [did.NewReferencedVerification vm did.Authentication]) am cd ci ka)
  else if String.eqb p doc.KeyPurposeAssertionMethod then
    Ok (did.Doc.mk id vms svc auth
          (am ++ [did.NewReferencedVerification vm did.AssertionMethod]) cd ci ka)
  else if String.eqb p doc.KeyPurposeKeyAgreement then
    Ok (did.Doc.mk id vms svc auth am cd ci
          (ka ++ [did.NewReferencedVerification vm did.KeyAgreement]))
  else if String.eqb p doc.KeyPurposeCapabilityDelegation then
    Ok (did.Doc.mk id vms svc auth am
          (cd ++ [did.NewReferencedVerification vm did.CapabilityDelegation]) ci ka)
  else if String.eqb p doc.KeyPurposeCapabilityInvocation then
    Ok (did.Doc.mk id vms svc auth am cd
          (ci ++ [did.NewReferencedVerification vm did.CapabilityInvocation]) ka)
  else
    Err ("public key purpose " +:+ p +:+ " not supported").

(** The loop over [v.Purposes]; it stops at the first tag the switch does
    not know. *)
Fixpoint addPurposes (vm : VM) (purposes : list string) (d : did.Doc.t VM)
  : result (did.Doc.t VM) :=
  match purposes with
  | [] => Ok d
  | p :: rest => d' ← addPurpose vm p d; addPurposes vm rest d'
  end.

(** The body of the loop over the public keys, for the entry [v]: [Err]
    is the reason of the failure response the body writes before it
    returns from the handler, [Ok] the state the next turn starts from. *)
Definition addPublicKey (v : PublicKey.t) (a : Draft.t VM) : result (Draft.t VM) :=
  match base64_DecodeString (PublicKey.Value v) with
  | Err e => Err ("failed to decode public key value : " +:+ e)
  | Ok keyValue =>
    k ← getKey (PublicKey.KeyType v) keyValue;
    if PublicKey.Recovery v then
      Ok (Draft.mk (Draft.didDoc a)
            (Draft.didMethodOpt a ++ [vdr.WithOption trustbloc.RecoveryPublicKeyOpt k])
            (Draft.keysID a))
    else if PublicKey.Update v then
      Ok (Draft.mk (Draft.didDoc a)
            (Draft.didMethodOpt a ++ [vdr.WithOption trustbloc.UpdatePublicKeyOpt k])
            (Draft.keysID a))
    else
      jwk ← jwksupport_JWKFromKey k;
      vm ← did_NewVerificationMethodFromJWK (PublicKey.ID v) (PublicKey.Type' v) "" jwk;
      d ← addPurposes vm (PublicKey.Purposes v) (Draft.didDoc a);
      Ok (Draft.mk d (Draft.didMethodOpt a) (<[PublicKey.ID v := keyValue]> (Draft.keysID a)))
  end.

(** The loop over the public keys, in order, stopping at the first
    failure. *)
Fixpoint addPublicKeys (keys : list PublicKey.t) (a : Draft.t VM) : result (Draft.t VM) :=
  match keys with
  | [] => Ok a
  | v :: rest => a' ← addPublicKey v a; addPublicKeys rest a'
  end.

(** The loop over the services. *)
Definition addServices (services : list Service.t) (d : did.Doc.t VM) : did.Doc.t VM :=
  foldl (fun d service =>
           let '(did.Doc.mk id vms svc auth am cd ci ka) := d in
           did.Doc.mk id vms
             (svc ++ [did.Service.mk (Service.ID service) (Service.Type' service)
                        (Service.Priority service) (Service.RecipientKeys service)
                        (Service.RoutingKeys service) (Service.Endpoint service)])
             auth am cd ci ka)
        d services.

Definition writeErrorResponse (rw : http.ResponseWriter) (status : nat) (msg : string)
  : http.ResponseWriter :=
  http.Write (http.Text msg) (http.WriteHeader status rw).

Definition writeResponse (rw : http.ResponseWriter) (v : RegisterResponse.t)
  : http.ResponseWriter :=
  http.Write (http.JSON v) rw.

(** [DIDState{Reason: reason, State: RegistrationStateFailure}]. *)
Definition failureState (reason : string) : DIDState.t :=
  DIDState.mk "" reason RegistrationStateFailure (Secret.mk []).

Definition registerDIDHandler (o : Operation.t VM) : HandlerFunc VM := fun rw req =>
  match http.Body req with
  | Err e =>
    (writeErrorResponse rw http.StatusBadRequest (invalidRequestErrMsg +:+ ": " +:+ e), [])
  | Ok data =>
    let jobID := RegisterDIDRequest.JobID data in
    let publicKey := DIDDocument.PublicKey (RegisterDIDRequest.DIDDocument data) in
    if Nat.eqb (length publicKey) 0 then
      (writeResponse rw (RegisterResponse.mk jobID (failureState "AddPublicKeys is empty")), [])
    else
      match addPublicKeys publicKey Draft.init with
      | Err reason =>
        (writeResponse rw (RegisterResponse.mk jobID (failureState reason)), [])
      | Ok a =>
        let didDoc :=
          addServices (DIDDocument.Service (RegisterDIDRequest.DIDDocument data))
                      (Draft.didDoc a) in
        let didMethodOpt := Draft.didMethodOpt a in
        match VDR.Create (Operation.blocVDRI o) didDoc didMethodOpt with
        | Err e =>
          (writeResponse rw
             (RegisterResponse.mk jobID (failureState ("failed to create did doc : " +:+ e))),
           [VDR.CreateCall didDoc didMethodOpt])
        | Ok docResolution =>
          let didID := did.Doc.ID (did.DocResolution.DIDDocument docResolution) in
          (writeResponse rw
             (RegisterResponse.mk jobID
                (DIDState.mk didID "" RegistrationStateFinished
                   (Secret.mk (createKeys (Draft.keysID a) didID)))),
           [VDR.CreateCall didDoc didMethodOpt])
        end
      end
  end.

Definition resolveDIDHandler (o : Operation.t VM) : HandlerFunc VM := fun rw req =>
  match http.queryValues "did" req with
  | [] => (writeErrorResponse rw http.StatusBadRequest "url param 'did' is missing", [])
  | didParam0 :: _ =>
    if String.eqb didParam0 "" then
      (writeErrorResponse rw http.StatusBadRequest "url param 'did' is missing", [])
    else
      match VDR.Read (Operation.blocVDRI o) didParam0 with
      | Err e =>
        (writeErrorResponse rw http.StatusBadRequest ("failed to resolve did: " +:+ e),
         [VDR.ReadCall didParam0])
      | Ok docResolution =>
        match DocResolution_JSONBytes docResolution with
        | Err e =>
          (writeErrorResponse rw http.StatusInternalServerError
             ("failed to marshal doc resolution: " +:+ e),
           [VDR.ReadCall didParam0])
        | Ok b =>
          (http.Write (http.Raw b)
             (http.WriteHeader http.StatusOK (http.HeaderSet "Content-type" didLDJson rw)),
           [VDR.ReadCall didParam0])
        end
      end
  end.

Definition registrarHandlers (o : Operation.t VM) : list (Handler.t VM) :=
  [support.NewHTTPHandler registerPath http.MethodPost (registerDIDHandler o)].

Definition resolverHandlers (o : Operation.t VM) : list (Handler.t VM) :=
  [support.NewHTTPHandler resolveDIDEndpoint http.MethodGet (resolveDIDHandler o)].

Definition GetRESTHandlers (o : Operation.t VM) (mode : string)
  : result (list (Handler.t VM)) :=
  if String.eqb mode registrarMode then
    Ok (registrarHandlers o)
  else if String.eqb mode resolverMode then
    Ok (resolverHandlers o)
  else if String.eqb mode combinedMode then
    let vh := registrarHandlers o in
    let ih := resolverHandlers o in
    Ok (vh ++ ih)
  else
    Err ("invalid operation mode: " +:+ mode).

End Operations.

(** ** Reference collaborators

    Executable stand-ins for the libraries, used to run the handlers on
    concrete requests: a decoder for the standard base64 alphabet with
    padding, the Bitcoin base58 encoder, the uncompressed-point decoder of
    the P-256 curve, a JWK constructor that rejects an elliptic-curve key
    without coordinates, and two backends. *)

Module Ref.

Definition b64val (c : ascii) : option N :=
  let n := N_of_ascii c in
  if (65 <=? n)%N && (n <=? 90)%N then Some (n - 65)%N
  else if (97 <=? n)%N && (n <=? 122)%N then Some (n - 71)%N
  else if (48 <=? n)%N && (n <=? 57)%N then Some (n + 4)%N
  else if (n =? 43)%N then Some 62%N
  else if (n =? 47)%N then Some 63%N
  else None.

Definition byteOfN (n : N) : byte :=
  match Byte.of_N (n mod 256) with
  | Some b => b
  | None => "000"%byte
  end.

Definition isPad (c : ascii) : bool := (N_of_ascii c =? 61)%N.

Definition illegalBase64 : string := "illegal base64 data".

(** One quantum of four characters at a time; padding only closes the
    input. *)
Fixpoint b64decode (s : list ascii) : result bytes :=
  match s with
  | [] => Ok []
  | a :: b :: c :: d :: rest =>
    match b64val a, b64val b with
    | Some va, Some vb =>
      if isPad c && isPad d then
        match rest with
        | [] => Ok [byteOfN (va * 4 + vb / 16)]
        | _ => Err illegalBase64
        end
      else
        match b64val c with
        | None => Err illegalBase64
        | Some vc =>
          if isPad d then
            match rest with
            | [] => Ok [byteOfN (va * 4 + vb / 16); byteOfN (vb * 16 + vc / 4)]
            | _ => Err illegalBase64
            end
          else
            match b64val d with
            | None => Err illegalBase64
            | Some vd =>
              tl ← b64decode rest;
              Ok (byteOfN (va * 4 + vb / 16) :: byteOfN (vb * 16 + vc / 4)
                    :: byteOfN (vc * 64 + vd) :: tl)
            end
        end
    | _, _ => Err illegalBase64
    end
  | _ => Err illegalBase64
  end.

Definition base64Decode (s : string) : result bytes :=
  b64decode (list_ascii_of_string s).

Definition b58alphabet : list ascii :=
  list_ascii_of_string "123456789ABCDEFGHJKLMNPQRSTUVWXYZabcdefghijkmnopqrstuvwxyz".

Definition bigEndian (b : bytes) : N :=
  foldl (fun acc x => (acc * 256 + Byte.to_N x)%N) 0%N b.

Fixpoint b58digits (fuel : nat) (x : N) (acc : list ascii) : list ascii :=
  match fuel with
  | O => acc
  | S fuel' =>
    if (x =? 0)%N then acc
    else b58digits fuel' (x / 58)%N
           (nth (N.to_nat (x mod 58)%N) b58alphabet "1"%char :: acc)
  end.

Fixpoint b58zeros (b : bytes) : list ascii :=
  match b with
  | x :: rest => if (Byte.to_N x =? 0)%N then "1"%char :: b58zeros rest else []
  | [] => []
  end.

Definition base58Encode (b : bytes) : string :=
  string_of_list_ascii (b58zeros b ++ b58digits (2 * length b) (bigEndian b) []).

(** The P-256 curve [y^2 = x^3 - 3x + b] over the prime field of order [p256_p]. *)
Definition p256_p : Z :=
  0xffffffff00000001000000000000000000000000ffffffffffffffffffffffff%Z.
Definition p256_b : Z :=
  0x5ac635d8aa3a93e7b3ebbd55769886bc651d06b0cc53b0f63bce3c3e27d2604b%Z.

Definition p256_IsOnCurve (x y : Z) : bool :=
  ((y * y) mod p256_p =? (x * x * x - 3 * x + p256_b) mod p256_p)%Z.

Definition bigEndianZ (b : bytes) : Z := Z.of_N (bigEndian b).

(** An uncompressed point is the byte 4 followed by the two 32-byte
    coordinates; anything else gives two nil integers. *)
Definition unmarshal (c : Curve) (data : bytes) : option Z * option Z :=
  match data with
  | tag :: coords =>
    if negb (length data =? 65)%nat then (None, None)
    else if negb (Byte.to_N tag =? 4)%N then (None, None)
    else
      let x := bigEndianZ (take 32 coords) in
      let y := bigEndianZ (drop 32 coords) in
      if (p256_p <=? x)%Z || (p256_p <=? y)%Z then (None, None)
      else if negb (p256_IsOnCurve x y) then (None, None)
      else (Some x, Some y)
  | [] => (None, None)
  end.

Definition jwkFromKey (k : PubKey) : result PubKey :=
  match k with
  | ECDSAPublicKey (Some _) (Some _) _ => Ok k
  | ECDSAPublicKey _ _ _ => Err "create JWK: invalid EC key (nil, or X/Y missing)"
  | Ed25519PublicKey _ => Ok k
  end.

Record VerificationMethod : Type := mkVM {
  vmID : string;
  vmType : string;
  vmController : string;
  vmJWK : PubKey
}.

Definition newVerificationMethodFromJWK (id keyType controller : string) (j : PubKey)
  : result VerificationMethod :=
  Ok (mkVM id keyType controller j).

Definition libs : GoLibs PubKey VerificationMethod := {|
  base64_DecodeString := base64Decode;
  elliptic_Unmarshal := unmarshal;
  jwksupport_JWKFromKey := jwkFromKey;
  did_NewVerificationMethodFromJWK := newVerificationMethodFromJWK;
  base58_Encode := base58Encode;
  DocResolution_JSONBytes := fun _ => Ok [];
  rangeOrder := map_to_list;
  rangeOrder_perm := fun m => Permutation_refl (map_to_list m)
|}.

(** The same libraries on a runtime that visits maps in the opposite order. *)
Definition libsReversed : GoLibs PubKey VerificationMethod := {|
  base64_DecodeString := base64Decode;
  elliptic_Unmarshal := unmarshal;
  jwksupport_JWKFromKey := jwkFromKey;
  did_NewVerificationMethodFromJWK := newVerificationMethodFromJWK;
  base58_Encode := base58Encode;
  DocResolution_JSONBytes := fun _ => Ok [];
  rangeOrder := fun m => reverse (map_to_list m);
  rangeOrder_perm := fun m => reverse_Permutation (map_to_list m)
|}.

(** A backend that accepts every document and names it [didID], and one
    that rejects every document with the error [e]. *)
Definition accepting (didID : string) : VDR.t VerificationMethod :=
  VDR.mk
    (fun d _ =>
       Ok (did.DocResolution.mk
             (did.Doc.mk didID (did.Doc.VerificationMethod d) (did.Doc.Service d)
                (did.Doc.Authentication d) (did.Doc.AssertionMethod d)
                (did.Doc.CapabilityDelegation d) (did.Doc.CapabilityInvocation d)
                (did.Doc.KeyAgreement d))))
    (fun _ => Err "not found").

Definition rejecting (e : string) : VDR.t VerificationMethod :=
  VDR.mk (fun _ _ => Err e) (fun _ => Err e).

Definition operation (backend : VDR.t VerificationMethod) : Operation.t VerificationMethod :=
  Operation.mk backend "testnet.example.com".

Definition post (data : RegisterDIDRequest.t) : http.Request :=
  http.mkRequest (Ok data) [].

End Ref.


(** ** What one key entry contributes

    The claims speak of the entries a key contributes to the buckets, to
    the backend options and to the tracked keys.  The definitions below
    name these contributions; the lemmas that follow tie them to the
    loop. *)

#[global] Instance VerificationRelationship_eq_dec : EqDecision did.VerificationRelationship.
Proof. solve_decision. Defined.

Section Views.
Context {JWK VM : Type} {L : GoLibs JWK VM}.

(** An ordinary key is one that is neither a recovery nor an update key. *)
Definition ordinary (v : PublicKey.t) : bool :=
  negb (PublicKey.Recovery v) && negb (PublicKey.Update v).

(** The raw bytes of an entry: its base64 value decoded. *)
Definition rawBytes (v : PublicKey.t) : bytes :=
  match base64_DecodeString (PublicKey.Value v) with
  | Ok keyValue => keyValue
  | Err _ => []
  end.

(** The decoded key of an entry. *)
Definition keyOf (v : PublicKey.t) : result PubKey :=
  match base64_DecodeString (PublicKey.Value v) with
  | Err e => Err ("failed to decode public key value : " +:+ e)
  | Ok keyValue => getKey (PublicKey.KeyType v) keyValue
  end.

(** The verification method built for an entry. *)
Definition methodOf (v : PublicKey.t) : result VM :=
  k ← keyOf v;
  jwk ← jwksupport_JWKFromKey k;
  did_NewVerificationMethodFromJWK (PublicKey.ID v) (PublicKey.Type' v) "" jwk.

(** The bucket a purpose tag selects, if it is one of the five tags. *)
Definition relationshipOf (p : string) : option did.VerificationRelationship :=
  if String.eqb p doc.KeyPurposeAuthentication then Some did.Authentication
  else if String.eqb p doc.KeyPurposeAssertionMethod then Some did.AssertionMethod
  else if String.eqb p doc.KeyPurposeKeyAgreement then Some did.KeyAgreement
  else if String.eqb p doc.KeyPurposeCapabilityDelegation then Some did.CapabilityDelegation
  else if String.eqb p doc.KeyPurposeCapabilityInvocation then Some did.CapabilityInvocation
  else None.

(** The five purpose tags the handler recognizes. *)
Definition recognized : list string :=
  [doc.KeyPurposeAuthentication; doc.KeyPurposeAssertionMethod; doc.KeyPurposeKeyAgreement;
   doc.KeyPurposeCapabilityDelegation; doc.KeyPurposeCapabilityInvocation].

(** The references to [vm] that the purposes [ps] put into bucket [r]. *)
Definition purposeRefs (vm : VM) (r : did.VerificationRelationship) (ps : list string)
  : list (did.Verification.t VM) :=
  flat_map (fun p => if decide (relationshipOf p = Some r)
                     then [did.NewReferencedVerification vm r] else []) ps.

(** The entries the key [v] contributes to bucket [r]. *)
Definition keyRefs (r : did.VerificationRelationship) (v : PublicKey.t)
  : list (did.Verification.t VM) :=
  if ordinary v then
    match methodOf v with
    | Ok vm => purposeRefs vm r (PublicKey.Purposes v)
    | Err _ => []
    end
  else [].

(** The name under which a recovery or update key is passed to the
    backend; the recovery flag is looked at first. *)
Definition optNameOf (v : PublicKey.t) : trustbloc.OptName :=
  if PublicKey.Recovery v then trustbloc.RecoveryPublicKeyOpt
  else trustbloc.UpdatePublicKeyOpt.

(** The backend options the key [v] contributes. *)
Definition keyOpts (v : PublicKey.t) : list vdr.DIDMethodOption :=
  if ordinary v then []
  else
    match keyOf v with
    | Ok k => [vdr.WithOption (optNameOf v) k]
    | Err _ => []
    end.

(** Tracking the ordinary keys of [keys] in order, from the map [m]. *)
Definition track (keys : list PublicKey.t) (m : gmap string bytes) : gmap string bytes :=
  foldl (fun m v => <[PublicKey.ID v := rawBytes v]> m) m (filter (fun v => ordinary v = true) keys).

(** Whether some entry of [keys] declares the id [i]. *)
Definition declares (i : string) (keys : list PublicKey.t) : bool :=
  existsb (fun w => String.eqb (PublicKey.ID w) i) keys.

(** The entries of [keys] that are the last to declare their id. *)
Fixpoint lastPerID (keys : list PublicKey.t) : list PublicKey.t :=
  match keys with
  | [] => []
  | v :: rest =>
    if declares (PublicKey.ID v) rest then lastPerID rest else v :: lastPerID rest
  end.

(** The secret-bundle entry of the key [v] under the identifier [didID]. *)
Definition secretOf (didID : string) (v : PublicKey.t) : Key.t :=
  Key.mk (didID +:+ "#" +:+ PublicKey.ID v) (base58_Encode (rawBytes v)).

(** The response written for a finished and for a failed registration. *)
Definition finished (jobID didID : string) (keys : list Key.t) : RegisterResponse.t :=
  RegisterResponse.mk jobID
    (DIDState.mk didID "" RegistrationStateFinished (Secret.mk keys)).

Definition failed (jobID reason : string) : RegisterResponse.t :=
  RegisterResponse.mk jobID (failureState reason).

End Views.

(** The public keys and the job identifier of a decoded request. *)
Definition publicKeysOf (data : RegisterDIDRequest.t) : list PublicKey.t :=
  DIDDocument.PublicKey (RegisterDIDRequest.DIDDocument data).

Definition servicesOf (data : RegisterDIDRequest.t) : list Service.t :=
  DIDDocument.Service (RegisterDIDRequest.DIDDocument data).

(** ** Sample requests

    Key entries and requests on which the handlers are run below.  The
    value of [ed1] is the base64 text of the bytes 1 to 32, the value
    [AA==] that of a single zero byte. *)

Module Sample.

Definition didID : string := "did:example:abc".

Definition ed1 : PublicKey.t :=
  PublicKey.mk "k1" "JwsVerificationKey2020" ["authentication"]
    "AQIDBAUGBwgJCgsMDQ4PEBESExQVFhcYGRobHB0eHyA=" "Ed25519" false false.

(** A second ordinary key that declares the id of [ed1]. *)
Definition ed1b : PublicKey.t :=
  PublicKey.mk "k1" "JwsVerificationKey2020" ["assertionMethod"] "AA==" "Ed25519" false false.

(** An ordinary key with two purposes. *)
Definition ed2 : PublicKey.t :=
  PublicKey.mk "k2" "JwsVerificationKey2020" ["authentication"; "keyAgreement"]
    "AA==" "Ed25519" false false.

(** An ordinary key that lists a purpose twice. *)
Definition ed3 : PublicKey.t :=
  PublicKey.mk "k5" "JwsVerificationKey2020" ["authentication"; "authentication"]
    "AA==" "Ed25519" false false.

Definition recoveryKey : PublicKey.t :=
  PublicKey.mk "recovery" "JwsVerificationKey2020" ["authentication"] "AA==" "Ed25519" true false.

Definition updateKey : PublicKey.t :=
  PublicKey.mk "update" "JwsVerificationKey2020" ["assertionMethod"] "AA==" "Ed25519" false true.

(** An entry with both flags set. *)
Definition bothFlags : PublicKey.t :=
  PublicKey.mk "rotation" "JwsVerificationKey2020" [] "AA==" "Ed25519" true true.

Definition rsaKey : PublicKey.t :=
  PublicKey.mk "k3" "JwsVerificationKey2020" ["authentication"] "AA==" "RSA" false false.

(** A key of an unknown type whose value is not base64 text either. *)
Definition rsaGarbled : PublicKey.t :=
  PublicKey.mk "k3" "JwsVerificationKey2020" ["authentication"] "?" "RSA" false false.

(** An ordinary key of an unknown type with an unsupported purpose. *)
Definition rsaSigning : PublicKey.t :=
  PublicKey.mk "k6" "JwsVerificationKey2020" ["signing"] "AA==" "RSA" false false.

Definition signingKey : PublicKey.t :=
  PublicKey.mk "k4" "JwsVerificationKey2020" ["authentication"; "signing"; "sealing"]
    "AA==" "Ed25519" false false.

(** A recovery key whose key type is [P256KeyType] and whose value, one
    zero byte, is not the encoding of a point. *)
Definition p256Recovery : PublicKey.t :=
  PublicKey.mk "recovery" "JwsVerificationKey2020" [] "AA==" P256KeyType true false.

Definition service : Service.t :=
  Service.mk "svc" "didcomm" 0%N ["key1"] [] "https://example.com/endpoint".

Definition request (keys : list PublicKey.t) : RegisterDIDRequest.t :=
  RegisterDIDRequest.mk "j1" (DIDDocument.mk keys [service]).

Definition accepting : Operation.t Ref.VerificationMethod :=
  Ref.operation (Ref.accepting didID).

Definition rejecting : Operation.t Ref.VerificationMethod :=
  Ref.operation (Ref.rejecting "boom").

Definition run (o : Operation.t Ref.VerificationMethod) (keys : list PublicKey.t)
  : http.ResponseWriter * list (VDR.Call Ref.VerificationMethod) :=
  registerDIDHandler (L := Ref.libs) o http.fresh (Ref.post (request keys)).

End Sample.

(** ** Construction of the operations *)

(** The options of the trustbloc VDR that [New] builds.  [TLS] is the
    library's TLS configuration, passed as a pointer that may be nil. *)
Module vdropt.
Inductive Option (TLS : Type) : Type :=
| WithTLSConfig (tlsConfig : option TLS)
| WithAuthToken (token : string)
| EnableSignatureVerification (enable : bool)
| WithDomain (domain : string)
| UseGenesisFile (url domain : string) (genesisData : bytes).
Arguments WithTLSConfig {TLS}.
Arguments WithAuthToken {TLS}.
Arguments EnableSignatureVerification {TLS}.
Arguments WithDomain {TLS}.
Arguments UseGenesisFile {TLS}.
End vdropt.

Module GenesisFileConfig.
Record t : Type := mk {
  URL : string;
  Data : bytes
}.
End GenesisFileConfig.

Module Config.
Record t (TLS : Type) : Type := mk {
  TLSConfig : option TLS;
  BlocDomain : string;
  Mode : string;
  SidetreeReadToken : string;
  SidetreeWriteToken : string;
  EnableSignatures : bool;
  GenesisFiles : list GenesisFileConfig.t
}.
Arguments mk {TLS}.
Arguments TLSConfig {TLS}.
Arguments BlocDomain {TLS}.
Arguments Mode {TLS}.
Arguments SidetreeReadToken {TLS}.
Arguments SidetreeWriteToken {TLS}.
Arguments EnableSignatures {TLS}.
Arguments GenesisFiles {TLS}.
End Config.

Section Construction.
Context {VM TLS : Type}.

(** [trustbloc.New(nil, opts...)], the constructor of the backend. *)
Variable trustbloc_New : list (vdropt.Option TLS) -> result (VDR.t VM).

(** The option slice [New] hands to the constructor: its literal, then
    the loop over the genesis files. *)
Definition vdriOpts (config : Config.t TLS) : list (vdropt.Option TLS) :=
  foldl (fun opts genesisFile =>
           opts ++ [vdropt.UseGenesisFile (GenesisFileConfig.URL genesisFile)
                      (GenesisFileConfig.URL genesisFile)
                      (GenesisFileConfig.Data genesisFile)])
        [vdropt.WithTLSConfig (Config.TLSConfig config);
         vdropt.WithAuthToken (Config.SidetreeReadToken config);
         vdropt.EnableSignatureVerification (Config.EnableSignatures config);
         vdropt.WithDomain (Config.BlocDomain config)]
        (Config.GenesisFiles config).

Definition New (config : Config.t TLS) : result (Operation.t VM) :=
  match trustbloc_New (vdriOpts config) with
  | Err e => Err e
  | Ok blocVDR => Ok (Operation.mk blocVDR (Config.BlocDomain config))
  end.

End Construction.

(** The document service the services loop builds from a submitted
    service. *)
Definition didService (service : Service.t) : did.Service.t :=
  did.Service.mk (Service.ID service) (Service.Type' service)
    (Service.Priority service) (Service.RecipientKeys service)
    (Service.RoutingKeys service) (Service.Endpoint service).

(** The entry [v] with the purposes [ps] in place of its own. *)
Definition withPurposes (ps : list string) (v : PublicKey.t) : PublicKey.t :=
  PublicKey.mk (PublicKey.ID v) (PublicKey.Type' v) ps (PublicKey.Value v)
    (PublicKey.KeyType v) (PublicKey.Recovery v) (PublicKey.Update v).

(** Sample configurations and requests for the properties beyond the
    claims. *)
Module Sample2.

Definition genesis1 : GenesisFileConfig.t :=
  GenesisFileConfig.mk "https://a.example.com/genesis" ["001"%byte].
Definition genesis2 : GenesisFileConfig.t :=
  GenesisFileConfig.mk "https://b.example.com/genesis" ["002"%byte].

Definition config : Config.t unit :=
  Config.mk None "testnet.example.com" "combined" "read-token" "write-token" true
    [genesis1; genesis2].

(** A backend constructor that accepts every option slice, and one that
    rejects every one. *)
Definition newAccepting (opts : list (vdropt.Option unit))
  : result (VDR.t Ref.VerificationMethod) :=
  Ok (Ref.accepting Sample.didID).

Definition newRejecting (opts : list (vdropt.Option unit))
  : result (VDR.t Ref.VerificationMethod) :=
  Err "no endpoints".

(** An ordinary key without purposes. *)
Definition bare : PublicKey.t :=
  PublicKey.mk "k7" "JwsVerificationKey2020" [] "AA==" "Ed25519" false false.

(** A recovery key with an unsupported purpose. *)
Definition recoverySigning : PublicKey.t :=
  PublicKey.mk "recovery" "JwsVerificationKey2020" ["signing"] "AA==" "Ed25519" true false.

(** A key whose value is not base64 text. *)
Definition garbled : PublicKey.t :=
  PublicKey.mk "k8" "JwsVerificationKey2020" ["authentication"] "?" "Ed25519" false false.

(** A backend that resolves the identifier [Sample.didID] only. *)
Definition resolving : Operation.t Ref.VerificationMethod :=
  Ref.operation
    (VDR.mk (fun _ _ => Err "read only")
       (fun didID =>
          if String.eqb didID Sample.didID
          then Ok (did.DocResolution.mk
                     (did.Doc.mk didID [] [] [] [] [] [] []))
          else Err "not found")).

Definition get (query : list (string * string)) : http.Request :=
  http.mkRequest (Err "EOF") query.

(** The reference libraries with a JWK constructor that rejects every
    key. *)
Definition libsNoJWK : GoLibs PubKey Ref.VerificationMethod := {|
  base64_DecodeString := Ref.base64Decode;
  elliptic_Unmarshal := Ref.unmarshal;
  jwksupport_JWKFromKey := fun _ => Err "create JWK: unsupported key";
  did_NewVerificationMethodFromJWK := Ref.newVerificationMethodFromJWK;
  base58_Encode := Ref.base58Encode;
  DocResolution_JSONBytes := fun _ => Ok [];
  rangeOrder := map_to_list;
  rangeOrder_perm := fun m => Permutation_refl (map_to_list m)
|}.

End Sample2.

(** * Properties *)

Set Warnings "-clear-no-such-hyp".

(** ** Results and strings *)

Lemma bind_Ok_inv {A B} (r : result A) (f : A -> result B) (b : B) :
  (r ≫= f) = Ok b -> exists a, r = Ok a /\ f a = Ok b.
Proof. destruct r as [a|e]; simpl; [eauto | discriminate]. Qed.

Lemma is_Ok_Ok {A} (a : A) : is_Ok (Ok a).
Proof. by exists a. Qed.

(** Cases on the first comparison of strings in the goal. *)
Ltac case_eqb :=
  match goal with
  | |- context [String.eqb ?s ?t] => destruct (String.eqb_spec s t) as [->|?]
  end.

Lemma append_inj_r (s t u : string) : s +:+ t = s +:+ u -> t = u.
Proof. induction s as [|c s IH]; simpl; [done | intros [= H]; auto]. Qed.

Lemma filter_none {A} (P : A -> Prop) `{!forall x, Decision (P x)} (l : list A) :
  (forall x, x ∈ l -> ~ P x) -> filter P l = [].
Proof.
  induction l as [|x l IH]; [done|]. intros Hl.
  rewrite filter_cons, decide_False by (apply Hl; left).
  apply IH. intros y Hy. apply Hl. by right.
Qed.

Lemma filter_fmap_pre {A B} (f : A -> B) (P : B -> Prop) `{!forall y, Decision (P y)}
    (l : list A) :
  filter P (f <$> l) = f <$> filter (fun x => P (f x)) l.
Proof.
  induction l as [|x l IH]; [done|].
  rewrite fmap_cons, !filter_cons, IH. by destruct (decide (P (f x))).
Qed.

Lemma eqb_neq_false (s t : string) : s <> t -> String.eqb s t = false.
Proof. by intros H; apply String.eqb_neq. Qed.

(** ** The HTTP writer *)

Lemma writeResponse_fresh_status rw v :
  http.status rw = None -> http.status (writeResponse rw v) = Some http.StatusOK.
Proof.
  intros H. unfold writeResponse, http.Write, http.WriteHeader. by rewrite H.
Qed.

Section Loop.
Context {JWK VM : Type} {L : GoLibs JWK VM}.
Implicit Types (v : PublicKey.t) (a : Draft.t VM) (d : did.Doc.t VM) (vm : VM).

(** ** The key decoder *)

Lemma getKey_Ed25519 value : getKey Ed25519KeyType value = Ok (Ed25519PublicKey value).
Proof. reflexivity. Qed.

Lemma getKey_P256 value :
  getKey P256KeyType value =
  Ok (ECDSAPublicKey (elliptic_Unmarshal P256 value).1 (elliptic_Unmarshal P256 value).2 P256).
Proof. unfold getKey. simpl. by destruct (elliptic_Unmarshal P256 value). Qed.

Lemma getKey_invalid keyType value :
  keyType <> Ed25519KeyType -> keyType <> P256KeyType ->
  getKey keyType value = Err ("invalid key type: " +:+ keyType).
Proof.
  intros H1 H2. unfold getKey. by rewrite !eqb_neq_false.
Qed.

(** ** The purposes loop *)

Lemma addPurpose_relationshipOf vm p d :
  addPurpose vm p d =
  match relationshipOf p with
  | Some r =>
    match addPurpose vm p d with
    | Ok d' => Ok d'
    | Err _ => Ok d
    end
  | None => Err ("public key purpose " +:+ p +:+ " not supported")
  end.
Proof.
  unfold addPurpose, relationshipOf. destruct d.
  repeat (destruct (String.eqb p _); [done|]). done.
Qed.

Lemma addPurpose_Ok vm p d d' :
  addPurpose vm p d = Ok d' ->
  (exists r0, relationshipOf p = Some r0) /\
  did.Doc.ID d' = did.Doc.ID d /\
  did.Doc.VerificationMethod d' = did.Doc.VerificationMethod d /\
  did.Doc.Service d' = did.Doc.Service d /\
  forall r, did.Doc.bucket r d' = did.Doc.bucket r d ++ purposeRefs vm r [p].
Proof.
  unfold addPurpose, purposeRefs, relationshipOf. destruct d. simpl.
  repeat (destruct (String.eqb p _);
    [intros [= <-]; repeat split; eauto;
     intros []; simpl; rewrite ?app_nil_r; done |]).
  discriminate.
Qed.

Lemma addPurpose_Err vm p d e :
  addPurpose vm p d = Err e ->
  relationshipOf p = None /\ e = "public key purpose " +:+ p +:+ " not supported".
Proof.
  unfold addPurpose, relationshipOf. destruct d.
  repeat (destruct (String.eqb p _); [discriminate|]). by intros [= <-].
Qed.

Lemma addPurpose_unsupported vm p d :
  relationshipOf p = None ->
  addPurpose vm p d = Err ("public key purpose " +:+ p +:+ " not supported").
Proof. intros H. by rewrite addPurpose_relationshipOf, H. Qed.

Lemma addPurpose_supported vm p d r :
  relationshipOf p = Some r -> is_Ok (addPurpose vm p d).
Proof.
  intros H. destruct (addPurpose vm p d) as [d'|e] eqn:E; [apply is_Ok_Ok|].
  apply addPurpose_Err in E as [E _]. congruence.
Qed.


Lemma addPurposes_Ok vm ps d d' :
  addPurposes vm ps d = Ok d' ->
  Forall (fun p => is_Some (relationshipOf p)) ps /\
  did.Doc.ID d' = did.Doc.ID d /\
  did.Doc.VerificationMethod d' = did.Doc.VerificationMethod d /\
  did.Doc.Service d' = did.Doc.Service d /\
  forall r, did.Doc.bucket r d' = did.Doc.bucket r d ++ purposeRefs vm r ps.
Proof.
  revert d. induction ps as [|p ps IH]; intros d; simpl.
  - intros [= <-]. repeat split; auto. intros r. by rewrite app_nil_r.
  - intros H. apply bind_Ok_inv in H as (d1 & H1 & H2).
    apply addPurpose_Ok in H1 as ([r0 Hr0] & Hi & Hv & Hs & Hb).
    apply IH in H2 as (HF & Hi' & Hv' & Hs' & Hb').
    repeat split; try congruence.
    + constructor; [by exists r0 | done].
    + intros r. rewrite Hb', Hb, <- app_assoc. f_equal.
      unfold purposeRefs. simpl. by rewrite app_nil_r.
Qed.

Lemma addPurposes_supported vm ps d :
  Forall (fun p => is_Some (relationshipOf p)) ps -> is_Ok (addPurposes vm ps d).
Proof.
  revert d. induction ps as [|p ps IH]; intros d HF; simpl; [apply is_Ok_Ok|].
  inversion HF as [|? ? [r Hr] HF']; subst.
  destruct (addPurpose_supported vm p d r Hr) as [d1 ->]. simpl. auto.
Qed.

(** The loop stops at the first unrecognized tag, with the reason that
    names it. *)
Lemma addPurposes_first_unsupported vm ps1 t ps2 d :
  Forall (fun p => is_Some (relationshipOf p)) ps1 ->
  relationshipOf t = None ->
  addPurposes vm (ps1 ++ t :: ps2) d = Err ("public key purpose " +:+ t +:+ " not supported").
Proof.
  revert d. induction ps1 as [|p ps1 IH]; intros d HF Ht; simpl.
  - by rewrite addPurpose_unsupported.
  - inversion HF as [|? ? [r Hr] HF']; subst.
    destruct (addPurpose_supported vm p d r Hr) as [d1 ->]. simpl. auto.
Qed.

Lemma addPurposes_unsupported vm ps t d :
  In t ps -> relationshipOf t = None -> exists e, addPurposes vm ps d = Err e.
Proof.
  revert d. induction ps as [|p ps IH]; intros d Hin Ht; [destruct Hin|].
  simpl. destruct (addPurpose vm p d) as [d1|e] eqn:E; simpl; [|eauto].
  destruct Hin as [->|Hin]; [|eauto].
  apply addPurpose_Ok in E as ([r Hr] & _). congruence.
Qed.

Lemma relationshipOf_recognized p : is_Some (relationshipOf p) <-> p ∈ recognized.
Proof.
  unfold relationshipOf, recognized. rewrite !elem_of_cons, elem_of_nil.
  repeat (case_eqb; [split; eauto 6|]).
  split; [intros H; by apply is_Some_None in H | naive_solver].
Qed.

Lemma relationshipOf_unrecognized p : relationshipOf p = None <-> p ∉ recognized.
Proof.
  rewrite <- relationshipOf_recognized, <- eq_None_not_Some. done.
Qed.

Lemma Forall_recognized ps :
  Forall (fun p => p ∈ recognized) ps <-> Forall (fun p => is_Some (relationshipOf p)) ps.
Proof. apply Forall_iff. intros p. symmetry. apply relationshipOf_recognized. Qed.




(** ** The key loop *)

Lemma doc_ext d1 d2 :
  did.Doc.ID d1 = did.Doc.ID d2 ->
  did.Doc.VerificationMethod d1 = did.Doc.VerificationMethod d2 ->
  did.Doc.Service d1 = did.Doc.Service d2 ->
  (forall r, did.Doc.bucket r d1 = did.Doc.bucket r d2) ->
  d1 = d2.
Proof.
  destruct d1, d2. simpl. intros -> -> -> H.
  pose proof (H did.Authentication). pose proof (H did.AssertionMethod).
  pose proof (H did.CapabilityDelegation). pose proof (H did.CapabilityInvocation).
  pose proof (H did.KeyAgreement). simpl in *. congruence.
Qed.

Lemma bucket_init r : did.Doc.bucket r (Draft.didDoc (@Draft.init VM)) = [].
Proof. by destruct r. Qed.

Lemma ordinary_false v :
  ordinary v = false <-> PublicKey.Recovery v = true \/ PublicKey.Update v = true.
Proof. unfold ordinary. destruct (PublicKey.Recovery v), (PublicKey.Update v); simpl; intuition. Qed.

Lemma ordinary_true v :
  ordinary v = true <-> PublicKey.Recovery v = false /\ PublicKey.Update v = false.
Proof. unfold ordinary. destruct (PublicKey.Recovery v), (PublicKey.Update v); simpl; intuition. Qed.

(** A recovery or update key: decoded, then handed over as an option. *)
Lemma addPublicKey_flagged v a :
  ordinary v = false ->
  addPublicKey v a =
  (k ← keyOf v;
   Ok (Draft.mk (Draft.didDoc a) (Draft.didMethodOpt a ++ [vdr.WithOption (optNameOf v) k])
         (Draft.keysID a))).
Proof.
  unfold addPublicKey, keyOf, optNameOf, ordinary.
  destruct (base64_DecodeString _) as [keyValue|e]; [|done].
  destruct (getKey _ keyValue) as [k|e]; [|done]. simpl.
  by destruct (PublicKey.Recovery v), (PublicKey.Update v).
Qed.

(** An ordinary key: one verification method, referenced from the
    buckets of its purposes, and its bytes tracked under its id. *)
Lemma addPublicKey_ordinary v a :
  ordinary v = true ->
  addPublicKey v a =
  (vm ← methodOf v;
   d ← addPurposes vm (PublicKey.Purposes v) (Draft.didDoc a);
   Ok (Draft.mk d (Draft.didMethodOpt a) (<[PublicKey.ID v := rawBytes v]> (Draft.keysID a)))).
Proof.
  unfold addPublicKey, methodOf, keyOf, rawBytes, ordinary.
  destruct (base64_DecodeString _) as [keyValue|e]; [|done].
  destruct (getKey _ keyValue) as [k|e]; [|done]. simpl.
  destruct (PublicKey.Recovery v), (PublicKey.Update v); try done. intros _.
  destruct (jwksupport_JWKFromKey k) as [jwk|e]; [|done]. simpl.
  by destruct (did_NewVerificationMethodFromJWK _ _ _ jwk).
Qed.

Lemma track_cons v keys m :
  track (v :: keys) m =
  track keys (if ordinary v then <[PublicKey.ID v := rawBytes v]> m else m).
Proof.
  unfold track. rewrite filter_cons. by destruct (ordinary v).
Qed.

Lemma track_app keys1 keys2 m : track (keys1 ++ keys2) m = track keys2 (track keys1 m).
Proof. unfold track. by rewrite filter_app, foldl_app. Qed.

(** What one turn of the loop changes. *)
Lemma addPublicKey_Ok v a a' :
  addPublicKey v a = Ok a' ->
  did.Doc.ID (Draft.didDoc a') = did.Doc.ID (Draft.didDoc a) /\
  did.Doc.VerificationMethod (Draft.didDoc a') = did.Doc.VerificationMethod (Draft.didDoc a) /\
  did.Doc.Service (Draft.didDoc a') = did.Doc.Service (Draft.didDoc a) /\
  (forall r, did.Doc.bucket r (Draft.didDoc a') = did.Doc.bucket r (Draft.didDoc a) ++ keyRefs r v) /\
  Draft.didMethodOpt a' = Draft.didMethodOpt a ++ keyOpts v /\
  Draft.keysID a' = track [v] (Draft.keysID a).
Proof.
  intros H. rewrite track_cons. unfold keyRefs, keyOpts.
  destruct (ordinary v) eqn:Eo.
  - rewrite addPublicKey_ordinary in H by done.
    apply bind_Ok_inv in H as (vm & Hvm & H). apply bind_Ok_inv in H as (d & Hd & [= <-]).
    rewrite Hvm. simpl. apply addPurposes_Ok in Hd as (_ & ? & ? & ? & ?).
    rewrite app_nil_r. repeat split; auto.
  - rewrite addPublicKey_flagged in H by done.
    apply bind_Ok_inv in H as (k & Hk & [= <-]). rewrite Hk. simpl.
    repeat split; auto. intros r. by rewrite app_nil_r.
Qed.

Lemma addPublicKeys_app keys1 keys2 a :
  addPublicKeys (keys1 ++ keys2) a = (a' ← addPublicKeys keys1 a; addPublicKeys keys2 a').
Proof.
  revert a. induction keys1 as [|v keys1 IH]; intros a; simpl; [done|].
  destruct (addPublicKey v a); simpl; auto.
Qed.

(** What the whole loop builds, when it runs to its end. *)
Lemma addPublicKeys_Ok keys a a' :
  addPublicKeys keys a = Ok a' ->
  did.Doc.ID (Draft.didDoc a') = did.Doc.ID (Draft.didDoc a) /\
  did.Doc.VerificationMethod (Draft.didDoc a') = did.Doc.VerificationMethod (Draft.didDoc a) /\
  did.Doc.Service (Draft.didDoc a') = did.Doc.Service (Draft.didDoc a) /\
  (forall r, did.Doc.bucket r (Draft.didDoc a') =
             did.Doc.bucket r (Draft.didDoc a) ++ flat_map (keyRefs r) keys) /\
  Draft.didMethodOpt a' = Draft.didMethodOpt a ++ flat_map keyOpts keys /\
  Draft.keysID a' = track keys (Draft.keysID a).
Proof.
  revert a. induction keys as [|v keys IH]; intros a; simpl.
  - intros [= <-]. rewrite app_nil_r. repeat split; auto. intros r. by rewrite app_nil_r.
  - intros H. apply bind_Ok_inv in H as (a1 & H1 & H2).
    apply addPublicKey_Ok in H1 as (Hi & Hv & Hs & Hb & Ho & Hk).
    apply IH in H2 as (Hi' & Hv' & Hs' & Hb' & Ho' & Hk').
    repeat split; try congruence.
    + intros r. by rewrite Hb', Hb, app_assoc.
    + by rewrite Ho', Ho, app_assoc.
    + rewrite Hk', Hk. by rewrite <- track_app.
Qed.

(** Whether a turn fails does not depend on the state it starts from. *)
Lemma addPublicKey_is_Ok_irrel v a b : is_Ok (addPublicKey v a) -> is_Ok (addPublicKey v b).
Proof.
  intros [a' H]. destruct (ordinary v) eqn:Eo.
  - rewrite addPublicKey_ordinary in * by done.
    apply bind_Ok_inv in H as (vm & Hvm & H). apply bind_Ok_inv in H as (d & Hd & _).
    rewrite Hvm. simpl. apply addPurposes_Ok in Hd as (HF & _).
    destruct (addPurposes_supported vm _ (Draft.didDoc b) HF) as [d' ->]. apply is_Ok_Ok.
  - rewrite addPublicKey_flagged in * by done.
    apply bind_Ok_inv in H as (k & -> & _). apply is_Ok_Ok.
Qed.

Lemma addPublicKeys_is_Ok_irrel keys a b :
  is_Ok (addPublicKeys keys a) -> is_Ok (addPublicKeys keys b).
Proof.
  revert a b. induction keys as [|v keys IH]; intros a b [a' H]; simpl in *; [apply is_Ok_Ok|].
  apply bind_Ok_inv in H as (a1 & H1 & H2).
  destruct (addPublicKey_is_Ok_irrel v a b) as [b1 ->]; [by exists a1|]. simpl.
  apply (IH a1). by exists a'.
Qed.

(** Dropping an entry from a request whose keys all pass leaves a request
    whose keys all pass. *)
Lemma addPublicKeys_is_Ok_drop pre v post a :
  is_Ok (addPublicKeys (pre ++ v :: post) a) -> is_Ok (addPublicKeys (pre ++ post) a).
Proof.
  intros [a' H]. rewrite addPublicKeys_app in *.
  apply bind_Ok_inv in H as (a1 & H1 & H2). rewrite H1. simpl in *.
  apply bind_Ok_inv in H2 as (a2 & _ & H3).
  apply (addPublicKeys_is_Ok_irrel post a2). by exists a'.
Qed.

(** ** The services loop *)

Lemma addServices_fields services d :
  did.Doc.ID (addServices services d) = did.Doc.ID d /\
  did.Doc.VerificationMethod (addServices services d) = did.Doc.VerificationMethod d /\
  forall r, did.Doc.bucket r (addServices services d) = did.Doc.bucket r d.
Proof.
  unfold addServices. revert d. induction services as [|s services IH]; intros d; simpl; [done|].
  match goal with |- context [foldl _ ?d' services] => destruct (IH d') as (-> & -> & Hb) end.
  destruct d. simpl. repeat split; auto.
Qed.

Lemma addServices_bucket services d r :
  did.Doc.bucket r (addServices services d) = did.Doc.bucket r d.
Proof. apply addServices_fields. Qed.

End Loop.

(** ** The tracked keys and the secret bundle *)

Section Bundle.
Context {JWK VM : Type} {L : GoLibs JWK VM}.
Implicit Types (v w : PublicKey.t) (keys : list PublicKey.t) (m : gmap string bytes).

Lemma declares_false i keys :
  declares i keys = false <-> forall w, w ∈ keys -> PublicKey.ID w <> i.
Proof.
  induction keys as [|v keys IH]; simpl.
  - split; [intros _ w Hw; inversion Hw | done].
  - rewrite orb_false_iff, IH, String.eqb_neq. split.
    + intros [H1 H2] w Hw. apply elem_of_cons in Hw as [->|Hw]; auto.
    + intros H. split; [apply H; left | intros w Hw; apply H; by right].
Qed.

Lemma declares_true i keys :
  declares i keys = true <-> exists w, w ∈ keys /\ PublicKey.ID w = i.
Proof.
  induction keys as [|v keys IH]; simpl.
  - split; [done | intros (w & Hw & _); inversion Hw].
  - rewrite orb_true_iff, IH, String.eqb_eq. split.
    + intros [H|(w & Hw & Hi)]; [exists v; split; [left|done] | exists w; split; [by right|done]].
    + intros (w & Hw & Hi). apply elem_of_cons in Hw as [->|Hw]; eauto.
Qed.

Lemma lastPerID_subseteq keys v : v ∈ lastPerID keys -> v ∈ keys.
Proof.
  induction keys as [|w keys IH]; simpl; [done|].
  destruct (declares _ keys).
  - intros H. right. auto.
  - intros H. apply elem_of_cons in H as [->|H]; [left | right; auto].
Qed.

Lemma lastPerID_NoDup keys : NoDup (PublicKey.ID <$> lastPerID keys).
Proof.
  induction keys as [|w keys IH]; simpl; [constructor|].
  destruct (declares _ keys) eqn:E; [done|].
  rewrite fmap_cons. constructor; [|done].
  intros H. apply list_elem_of_fmap in H as (u & Hu & Hin).
  apply lastPerID_subseteq in Hin.
  eapply (proj1 (declares_false _ _) E); eauto.
Qed.

(** The last entry to declare an id survives. *)
Lemma lastPerID_last pre v post :
  declares (PublicKey.ID v) post = false -> v ∈ lastPerID (pre ++ v :: post).
Proof.
  intros H. induction pre as [|w pre IH]; simpl.
  - rewrite H. left.
  - destruct (declares _ (pre ++ v :: post)); [done | by right].
Qed.

Lemma lastPerID_distinct keys : NoDup (PublicKey.ID <$> keys) -> lastPerID keys = keys.
Proof.
  induction keys as [|w keys IH]; simpl; [done|].
  rewrite NoDup_cons. intros [Hw Hnd].
  destruct (declares _ keys) eqn:E.
  - apply declares_true in E as (u & Hu & Hi). destruct Hw.
    apply list_elem_of_fmap. eauto.
  - by rewrite IH.
Qed.

(** The tracked bytes of an id are those of the last ordinary entry that
    declares it. *)
Lemma foldl_track_lookup (l : list PublicKey.t) m i b :
  foldl (fun m v => <[PublicKey.ID v := rawBytes v]> m) m l !! i = Some b <->
  (exists v, v ∈ lastPerID l /\ PublicKey.ID v = i /\ rawBytes v = b) \/
  (declares i l = false /\ m !! i = Some b).
Proof.
  revert m. induction l as [|v l IH]; intros m; simpl.
  - split; [auto | intros [(v & Hv & _)|[_ H]]; [inversion Hv | done]].
  - rewrite IH.
    destruct (String.eqb_spec (PublicKey.ID v) i) as [Hi|Hi];
      destruct (declares (PublicKey.ID v) l) eqn:E; simpl;
      try setoid_rewrite elem_of_cons.
    + subst i. rewrite E. naive_solver.
    + subst i. rewrite E, lookup_insert_eq. naive_solver.
    + rewrite lookup_insert_ne by done. naive_solver.
    + rewrite lookup_insert_ne by done. naive_solver.
Qed.

Lemma track_lookup keys i b :
  track keys ∅ !! i = Some b <->
  exists v, v ∈ lastPerID (filter (fun v => ordinary v = true) keys) /\
            PublicKey.ID v = i /\ rawBytes v = b.
Proof.
  unfold track. rewrite foldl_track_lookup, lookup_empty. naive_solver.
Qed.

Lemma track_to_list keys :
  map_to_list (track keys ∅) ≡ₚ
  (fun v => (PublicKey.ID v, rawBytes v)) <$> lastPerID (filter (fun v => ordinary v = true) keys).
Proof.
  apply NoDup_Permutation.
  - apply NoDup_map_to_list.
  - apply (NoDup_fmap_1 fst). rewrite <- list_fmap_compose. apply lastPerID_NoDup.
  - intros [i b]. rewrite elem_of_map_to_list, track_lookup, list_elem_of_fmap.
    split; intros (v & H1 & H2); exists v; [destruct H2 as [<- <-]; done | inversion H1; subst; done].
Qed.

Lemma createKeys_fmap m didID :
  createKeys m didID =
  (fun kv => Key.mk (didID +:+ "#" +:+ kv.1) (base58_Encode kv.2)) <$> rangeOrder m.
Proof.
  unfold createKeys. generalize (rangeOrder m). intros l.
  induction l as [|kv l IH] using rev_ind; [done|].
  by rewrite foldl_snoc, IH, fmap_app.
Qed.

(** The bundle built from the tracked keys of a request: the entry of
    each ordinary key that is the last to declare its id, in some order. *)
Lemma createKeys_track keys didID :
  createKeys (track keys ∅) didID ≡ₚ
  secretOf didID <$> lastPerID (filter (fun v => ordinary v = true) keys).
Proof.
  rewrite createKeys_fmap, rangeOrder_perm, track_to_list, <- list_fmap_compose. done.
Qed.

Lemma filter_ID_singleton (l : list PublicKey.t) v :
  NoDup (PublicKey.ID <$> l) -> v ∈ l ->
  filter (fun w => PublicKey.ID w = PublicKey.ID v) l = [v].
Proof.
  induction l as [|w l IH]; [intros _ H; inversion H|].
  rewrite fmap_cons, NoDup_cons. intros [Hw Hnd] Hin. rewrite filter_cons.
  assert (Hout : forall u, u ∈ l -> PublicKey.ID u <> PublicKey.ID w).
  { intros u Hu E. apply Hw. rewrite <- E. apply list_elem_of_fmap. eauto. }
  apply elem_of_cons in Hin as [->|Hin].
  - rewrite decide_True by done. f_equal.
    apply filter_none. intros u Hu. by apply Hout.
  - rewrite decide_False by (intros E; by apply (Hout v)). auto.
Qed.

End Bundle.

(** ** The registration handler *)

Section Handler.
Context {JWK VM : Type} {L : GoLibs JWK VM}.
Implicit Types (o : Operation.t VM) (rw : http.ResponseWriter) (req : http.Request)
  (data : RegisterDIDRequest.t) (v : PublicKey.t) (a : Draft.t VM).

Lemma register_no_keys o rw req data :
  http.Body req = Ok data -> publicKeysOf data = [] ->
  registerDIDHandler o rw req =
  (writeResponse rw (failed (RegisterDIDRequest.JobID data) "AddPublicKeys is empty"), []).
Proof.
  unfold registerDIDHandler, publicKeysOf. intros -> ->. reflexivity.
Qed.

Lemma register_key_failure o rw req data reason :
  http.Body req = Ok data ->
  addPublicKeys (publicKeysOf data) Draft.init = Err reason ->
  registerDIDHandler o rw req =
  (writeResponse rw (failed (RegisterDIDRequest.JobID data) reason), []).
Proof.
  unfold registerDIDHandler, publicKeysOf. intros -> H.
  destruct (DIDDocument.PublicKey _) as [|v keys]; [discriminate|].
  simpl length. simpl Nat.eqb. cbv iota. by rewrite H.
Qed.

Lemma register_submit o rw req data a :
  http.Body req = Ok data ->
  publicKeysOf data <> [] ->
  addPublicKeys (publicKeysOf data) Draft.init = Ok a ->
  let didDoc := addServices (servicesOf data) (Draft.didDoc a) in
  let opts := Draft.didMethodOpt a in
  registerDIDHandler o rw req =
  (writeResponse rw
     match VDR.Create (Operation.blocVDRI o) didDoc opts with
     | Err e => failed (RegisterDIDRequest.JobID data) ("failed to create did doc : " +:+ e)
     | Ok res =>
       let didID := did.Doc.ID (did.DocResolution.DIDDocument res) in
       finished (RegisterDIDRequest.JobID data) didID (createKeys (Draft.keysID a) didID)
     end,
   [VDR.CreateCall didDoc opts]).
Proof.
  unfold registerDIDHandler, publicKeysOf, servicesOf. intros -> Hne H.
  destruct (DIDDocument.PublicKey _) as [|v keys]; [done|].
  simpl length. simpl Nat.eqb. cbv iota. rewrite H. simpl.
  by destruct (VDR.Create _ _ _).
Qed.

(** A loop that fails within the first keys of a request fails the
    request, whatever keys follow. *)
Lemma register_fails_within o rw req data keys1 keys2 reason :
  http.Body req = Ok data ->
  publicKeysOf data = keys1 ++ keys2 ->
  addPublicKeys keys1 Draft.init = Err reason ->
  registerDIDHandler o rw req =
  (writeResponse rw (failed (RegisterDIDRequest.JobID data) reason), []).
Proof.
  intros Eb Hk H. apply register_key_failure; [done|].
  by rewrite Hk, addPublicKeys_app, H.
Qed.

(** A handler that called the backend decoded the request, found keys in
    it and ran the key loop to its end. *)
Lemma register_calls_inv o rw req c :
  c ∈ (registerDIDHandler o rw req).2 ->
  exists data a,
    http.Body req = Ok data /\
    publicKeysOf data <> [] /\
    addPublicKeys (publicKeysOf data) Draft.init = Ok a /\
    c = VDR.CreateCall (addServices (servicesOf data) (Draft.didDoc a)) (Draft.didMethodOpt a).
Proof.
  destruct (http.Body req) as [data|e] eqn:Eb.
  2:{ unfold registerDIDHandler. rewrite Eb. simpl. intros H. inversion H. }
  destruct (publicKeysOf data) as [|v keys] eqn:Ek.
  { rewrite (register_no_keys o rw req data Eb Ek). simpl. intros H. inversion H. }
  destruct (addPublicKeys (publicKeysOf data) Draft.init) as [a|reason] eqn:Ea.
  2:{ rewrite (register_key_failure o rw req data reason Eb Ea). simpl. intros H. inversion H. }
  assert (Hne : publicKeysOf data <> []) by (by rewrite Ek).
  rewrite (register_submit o rw req data a Eb Hne Ea). simpl.
  intros H. apply list_elem_of_singleton in H as ->.
  by exists data, a.
Qed.

(** Every key of a loop that ran to its end decoded to a key, and every
    ordinary one got a verification method and had recognized purposes
    only. *)
Lemma keyOf_Ok v k :
  keyOf v = Ok k ->
  base64_DecodeString (PublicKey.Value v) = Ok (rawBytes v) /\
  getKey (PublicKey.KeyType v) (rawBytes v) = Ok k.
Proof.
  unfold keyOf, rawBytes. by destruct (base64_DecodeString _).
Qed.

Lemma addPublicKey_Ok_key v a a' :
  addPublicKey v a = Ok a' ->
  (exists k, keyOf v = Ok k) /\
  (ordinary v = true ->
   (exists vm, methodOf v = Ok vm) /\
   Forall (fun p => is_Some (relationshipOf p)) (PublicKey.Purposes v)).
Proof.
  intros H. destruct (ordinary v) eqn:Eo.
  - rewrite addPublicKey_ordinary in H by done.
    apply bind_Ok_inv in H as (vm & Hvm & H). apply bind_Ok_inv in H as (d & Hd & _).
    apply addPurposes_Ok in Hd as (HF & _).
    split; [|eauto]. unfold methodOf in Hvm. apply bind_Ok_inv in Hvm as (k & Hk & _). eauto.
  - rewrite addPublicKey_flagged in H by done.
    apply bind_Ok_inv in H as (k & Hk & _). split; [eauto | done].
Qed.

Lemma addPublicKeys_Ok_key keys a a' v :
  addPublicKeys keys a = Ok a' -> v ∈ keys ->
  (exists k, keyOf v = Ok k) /\
  (ordinary v = true ->
   (exists vm, methodOf v = Ok vm) /\
   Forall (fun p => is_Some (relationshipOf p)) (PublicKey.Purposes v)).
Proof.
  revert a. induction keys as [|w keys IH]; intros a H Hin; [inversion Hin|].
  simpl in H. apply bind_Ok_inv in H as (a1 & H1 & H2).
  apply elem_of_cons in Hin as [->|Hin]; [by eapply addPublicKey_Ok_key | eauto].
Qed.

End Handler.

(** ** The transport tier *)

Section Transport.
Context {JWK VM : Type} {L : GoLibs JWK VM}.

(** A body that does not decode is answered with status 400 and the text
    "invalid request: <error>", without a backend call. *)
Lemma register_malformed (o : Operation.t VM) req e :
  http.Body req = Err e ->
  registerDIDHandler o http.fresh req =
  (http.mkResponseWriter (Some 400) [] [http.Text ("invalid request: " +:+ e)], []).
Proof. unfold registerDIDHandler. by intros ->. Qed.

(** A resolution request without a [did] parameter, or with an empty
    one, is answered with status 400 whatever the backend. *)
Lemma resolve_missing_did (o : Operation.t VM) req :
  http.queryValues "did" req = [] \/ (exists rest, http.queryValues "did" req = "" :: rest) ->
  resolveDIDHandler o http.fresh req =
  (http.mkResponseWriter (Some 400) [] [http.Text "url param 'did' is missing"], []).
Proof. unfold resolveDIDHandler. by intros [->|[rest ->]]. Qed.

End Transport.

(** * The claims *)

Section Claims.
Context {JWK VM : Type} {L : GoLibs JWK VM}.
Implicit Types (o : Operation.t VM) (rw : http.ResponseWriter) (req : http.Request)
  (data : RegisterDIDRequest.t) (v : PublicKey.t) (a : Draft.t VM).

(** C7.  A well-formed registration request whose [publicKeys] sequence is
    empty is answered with the failure "AddPublicKeys is empty": the
    status is 200 unless the writer already had one, the headers are left
    as they were, and one JSON value is appended to the body, the
    registration response with the job id of the request and a DID state
    whose identifier is empty, whose reason is "AddPublicKeys is empty",
    whose state is the failure state and whose secret holds no keys.  The
    answer is the same whatever the services of the request and whatever
    the backend, and the handler makes no backend call: no key is
    processed, no service is folded, nothing is created. *)
Theorem empty_publicKeys_fails o rw req data :
  http.Body req = Ok data ->
  publicKeysOf data = [] ->
  registerDIDHandler o rw req =
  (http.mkResponseWriter
     (Some (match http.status rw with Some s => s | None => 200 end))
     (http.header rw)
     (http.body rw ++
      [http.JSON
         (RegisterResponse.mk (RegisterDIDRequest.JobID data)
            (DIDState.mk "" "AddPublicKeys is empty" RegistrationStateFailure
               (Secret.mk [])))]),
   []).
Proof.
  intros Eb Hkeys. rewrite (register_no_keys o rw req data Eb Hkeys).
  unfold writeResponse, http.Write, http.WriteHeader.
  by destruct rw as [[s|] h b].
Qed.

(** C9.  The mode router: "registrar" yields the registration handler
    alone (POST /1.0/register), "resolver" the resolution handler alone
    (GET /resolveDID), "combined" the two with the registration handler
    first, and every other mode fails with "invalid operation mode:
    <mode>" and yields no handlers. *)
Theorem GetRESTHandlers_modes o :
  GetRESTHandlers o "registrar" =
    Ok [Handler.mk "/1.0/register" "POST" (registerDIDHandler o)] /\
  GetRESTHandlers o "resolver" =
    Ok [Handler.mk "/resolveDID" "GET" (resolveDIDHandler o)] /\
  GetRESTHandlers o "combined" =
    Ok [Handler.mk "/1.0/register" "POST" (registerDIDHandler o);
        Handler.mk "/resolveDID" "GET" (resolveDIDHandler o)] /\
  forall mode,
    mode <> "registrar" -> mode <> "resolver" -> mode <> "combined" ->
    GetRESTHandlers o mode = Err ("invalid operation mode: " +:+ mode).
Proof.
  repeat split. intros mode H1 H2 H3. unfold GetRESTHandlers.
  by rewrite !eqb_neq_false.
Qed.

(** C8, amended.  When the handler reaches the backend's create call and
    the backend returns an error, the answer is the failure whose reason
    is "failed to create did doc : <error>", with a space on both sides of
    the colon, written as the JSON body of a response whose status is 200
    when the handler was given a writer without a status. *)
Theorem create_error_reported o rw req d opts e :
  (registerDIDHandler o rw req).2 = [VDR.CreateCall d opts] ->
  VDR.Create (Operation.blocVDRI o) d opts = Err e ->
  exists data,
    http.Body req = Ok data /\
    (registerDIDHandler o rw req).1 =
      writeResponse rw
        (failed (RegisterDIDRequest.JobID data) ("failed to create did doc : " +:+ e)) /\
    (http.status rw = None ->
     http.status (registerDIDHandler o rw req).1 = Some http.StatusOK).
Proof.
  intros Hc He.
  destruct (register_calls_inv o rw req (VDR.CreateCall d opts)) as (data & a & Eb & Hne & Ea & [= -> ->]).
  { rewrite Hc. left. }
  exists data. rewrite (register_submit o rw req data a Eb Hne Ea). cbn [fst snd].
  rewrite He. cbn [fst snd]. repeat split; auto. apply writeResponse_fresh_status.
Qed.

(** C1, amended.  When the backend's create call succeeds, the answer is
    Finished with the identifier the backend assigned, and the secret
    bundle holds, in some order, exactly one entry for each ordinary key
    that is the last ordinary key of the request to declare its id: the
    entry's id is the identifier, "#" and the declared id, and its
    publicKeyBase58 is the base58 encoding of the key's base64-decoded
    bytes.  When the ordinary keys declare pairwise distinct ids, that is
    one entry for each ordinary key. *)
Theorem finished_secret_bundle o rw req d opts res :
  (registerDIDHandler o rw req).2 = [VDR.CreateCall d opts] ->
  VDR.Create (Operation.blocVDRI o) d opts = Ok res ->
  let didID := did.Doc.ID (did.DocResolution.DIDDocument res) in
  exists data keys,
    let ordinaryKeys := filter (fun v => ordinary v = true) (publicKeysOf data) in
    http.Body req = Ok data /\
    (registerDIDHandler o rw req).1 =
      writeResponse rw (finished (RegisterDIDRequest.JobID data) didID keys) /\
    keys ≡ₚ secretOf didID <$> lastPerID ordinaryKeys /\
    (forall v, v ∈ ordinaryKeys ->
       base64_DecodeString (PublicKey.Value v) = Ok (rawBytes v)) /\
    (NoDup (PublicKey.ID <$> ordinaryKeys) -> keys ≡ₚ secretOf didID <$> ordinaryKeys).
Proof.
  intros Hc He didID.
  destruct (register_calls_inv o rw req (VDR.CreateCall d opts)) as (data & a & Eb & Hne & Ea & [= -> ->]).
  { rewrite Hc. left. }
  exists data, (createKeys (Draft.keysID a) didID).
  rewrite (register_submit o rw req data a Eb Hne Ea). simpl. rewrite He.
  destruct (addPublicKeys_Ok _ _ _ Ea) as (_ & _ & _ & _ & _ & Hk).
  rewrite Hk. simpl. split; [done|]. split; [done|]. split; [|split].
  - apply createKeys_track.
  - intros v Hv. apply list_elem_of_filter in Hv as [_ Hv].
    destruct (addPublicKeys_Ok_key _ _ _ v Ea Hv) as [[k Hk'] _].
    by apply keyOf_Ok in Hk' as [? _].
  - intros Hnd. rewrite createKeys_track. by rewrite lastPerID_distinct.
Qed.

(** C10.  When two ordinary entries of a request declare the same id and
    the request succeeds, the secret bundle holds a single entry for that
    id, and it encodes the bytes of the last ordinary entry that declares
    the id.  This holds for every order in which the runtime visits the
    tracked map; nothing more is known of the order of the bundle. *)
Theorem duplicate_id_last_wins o rw req data pre v1 mid v2 post d opts res :
  http.Body req = Ok data ->
  publicKeysOf data = pre ++ v1 :: mid ++ v2 :: post ->
  ordinary v1 = true -> ordinary v2 = true ->
  PublicKey.ID v1 = PublicKey.ID v2 ->
  (forall w, w ∈ post -> ordinary w = true -> PublicKey.ID w <> PublicKey.ID v2) ->
  (registerDIDHandler o rw req).2 = [VDR.CreateCall d opts] ->
  VDR.Create (Operation.blocVDRI o) d opts = Ok res ->
  let didID := did.Doc.ID (did.DocResolution.DIDDocument res) in
  exists keys,
    (registerDIDHandler o rw req).1 =
      writeResponse rw (finished (RegisterDIDRequest.JobID data) didID keys) /\
    filter (fun e => Key.ID e = didID +:+ "#" +:+ PublicKey.ID v2) keys =
      [Key.mk (didID +:+ "#" +:+ PublicKey.ID v2) (base58_Encode (rawBytes v2))] /\
    base64_DecodeString (PublicKey.Value v2) = Ok (rawBytes v2).
Proof.
  intros Eb Hkeys Ho1 Ho2 Hid Hlast Hc He didID.
  destruct (register_calls_inv o rw req (VDR.CreateCall d opts)) as (data' & a & Eb' & Hne & Ea & [= -> ->]).
  { rewrite Hc. left. }
  assert (data' = data) as -> by congruence.
  exists (createKeys (Draft.keysID a) didID).
  rewrite (register_submit o rw req data a Eb Hne Ea). simpl. rewrite He.
  destruct (addPublicKeys_Ok _ _ _ Ea) as (_ & _ & _ & _ & _ & Hk).
  rewrite Hk. simpl. split; [done|]. split.
  - apply Permutation_singleton_r. rewrite createKeys_track.
    set (l := lastPerID _).
    assert (Hin : v2 ∈ l).
    { unfold l. rewrite Hkeys.
      set (P := fun v => ordinary v = true).
      assert (filter P (pre ++ v1 :: mid ++ v2 :: post) =
              (filter P pre ++ v1 :: filter P mid) ++ v2 :: filter P post) as ->.
      { rewrite filter_app, filter_cons, decide_True by done.
        rewrite filter_app, filter_cons, decide_True by done.
        by rewrite <- app_assoc. }
      apply lastPerID_last. apply declares_false.
      intros w Hw. apply list_elem_of_filter in Hw as [Hw1 Hw2]. auto. }
    assert (Hnd : NoDup (PublicKey.ID <$> l)) by apply lastPerID_NoDup.
    rewrite filter_fmap_pre.
    rewrite (list_filter_iff _ (fun w => PublicKey.ID w = PublicKey.ID v2)).
    + by rewrite (filter_ID_singleton l v2 Hnd Hin).
    + intros w. simpl. split; [intros H; by do 2 apply append_inj_r in H | by intros ->].
  - assert (Hv : v2 ∈ publicKeysOf data) by (rewrite Hkeys; set_solver).
    destruct (addPublicKeys_Ok_key _ _ _ v2 Ea Hv) as [[k Hk'] _].
    by apply keyOf_Ok in Hk' as [? _].
Qed.

(** C3.  A key entry flagged as recovery or update key, in a request that
    reaches the backend.  The turn of the loop on the entry leaves the
    document and the tracked keys as they are and appends the decoded key
    to the backend options, as the recovery key when the recovery flag is
    set and as the update key otherwise, whatever purposes the entry
    declares.  So the option reaches the backend between the options of
    the earlier and of the later entries, and the document submitted and
    the keys from which the secret bundle is built are those of the same
    request without the entry: no bucket and no bundle receives anything
    for it. *)
Theorem flagged_key_is_option_only o rw req data pre v post d opts :
  http.Body req = Ok data ->
  publicKeysOf data = pre ++ v :: post ->
  PublicKey.Recovery v = true \/ PublicKey.Update v = true ->
  (registerDIDHandler o rw req).2 = [VDR.CreateCall d opts] ->
  exists k a0,
    base64_DecodeString (PublicKey.Value v) = Ok (rawBytes v) /\
    getKey (PublicKey.KeyType v) (rawBytes v) = Ok k /\
    (forall a,
       addPublicKey v a =
       Ok (Draft.mk (Draft.didDoc a)
             (Draft.didMethodOpt a ++
              [vdr.WithOption (if PublicKey.Recovery v then trustbloc.RecoveryPublicKeyOpt
                               else trustbloc.UpdatePublicKeyOpt) k])
             (Draft.keysID a))) /\
    opts = flat_map keyOpts pre ++
           [vdr.WithOption (if PublicKey.Recovery v then trustbloc.RecoveryPublicKeyOpt
                            else trustbloc.UpdatePublicKeyOpt) k] ++
           flat_map keyOpts post /\
    addPublicKeys (pre ++ post) Draft.init = Ok a0 /\
    d = addServices (servicesOf data) (Draft.didDoc a0) /\
    (forall r, did.Doc.bucket r d = flat_map (keyRefs r) pre ++ flat_map (keyRefs r) post) /\
    forall res,
      VDR.Create (Operation.blocVDRI o) d opts = Ok res ->
      let didID := did.Doc.ID (did.DocResolution.DIDDocument res) in
      (registerDIDHandler o rw req).1 =
        writeResponse rw
          (finished (RegisterDIDRequest.JobID data) didID (createKeys (Draft.keysID a0) didID)).
Proof.
  intros Eb Hkeys Hflag Hc. apply ordinary_false in Hflag.
  destruct (register_calls_inv o rw req (VDR.CreateCall d opts))
    as (data' & a & Eb' & Hne & Ea & [= -> ->]).
  { rewrite Hc. left. }
  assert (data' = data) as -> by congruence.
  rewrite Hkeys in Ea.
  destruct (addPublicKeys_is_Ok_drop pre v post Draft.init) as [a0 Ea0]; [by exists a|].
  destruct (addPublicKeys_Ok_key _ _ _ v Ea) as [[k Hk] _]; [set_solver|].
  destruct (keyOf_Ok v k Hk) as [Hb Hg].
  destruct (addPublicKeys_Ok _ _ _ Ea) as (Hi & Hv & Hs & Hbk & Ho & Hm).
  destruct (addPublicKeys_Ok _ _ _ Ea0) as (Hi0 & Hv0 & Hs0 & Hbk0 & Ho0 & Hm0).
  assert (Hrefs : forall r, flat_map (keyRefs r) (pre ++ v :: post) =
                            flat_map (keyRefs r) (pre ++ post)).
  { intros r. rewrite !flat_map_app. simpl. unfold keyRefs at 2. by rewrite Hflag. }
  assert (Hdoc : Draft.didDoc a = Draft.didDoc a0).
  { apply doc_ext; [congruence | congruence | congruence |].
    intros r. by rewrite Hbk, Hbk0, Hrefs. }
  assert (Hmap : Draft.keysID a = Draft.keysID a0).
  { rewrite Hm, Hm0, !track_app, track_cons. by rewrite Hflag. }
  exists k, a0. split; [done|]. split; [done|]. split; [|split; [|split; [done|split; [|split]]]].
  - intros a'. rewrite addPublicKey_flagged, Hk by done. done.
  - rewrite Ho. simpl. rewrite flat_map_app. simpl. unfold keyOpts at 2.
    by rewrite Hflag, Hk.
  - by rewrite Hdoc.
  - intros r. by rewrite addServices_bucket, Hdoc, Hbk0, bucket_init, flat_map_app.
  - intros res He didID.
    rewrite (register_submit o rw req data a Eb Hne) by (by rewrite Hkeys).
    cbn [fst snd]. rewrite He. by rewrite Hmap.
Qed.


(** The handler puts verification methods into the buckets only: the
    document's own list of verification methods is empty when it reaches
    the backend. *)
Lemma submitted_method_list_empty o rw req d opts :
  (registerDIDHandler o rw req).2 = [VDR.CreateCall d opts] ->
  did.Doc.VerificationMethod d = [].
Proof.
  intros Hc.
  destruct (register_calls_inv o rw req (VDR.CreateCall d opts))
    as (data & a & _ & _ & Ea & [= -> ->]).
  { rewrite Hc. left. }
  destruct (addPublicKeys_Ok _ _ _ Ea) as (_ & Hvms & _).
  destruct (addServices_fields (servicesOf data) (Draft.didDoc a)) as (_ & -> & _).
  by rewrite Hvms.
Qed.

(** C5, amended.  An ordinary key entry with a purpose tag outside the
    five recognized ones fails its request: the answer is a failure and no
    document goes to the backend.  The reason is the one with which the
    loop fails on the entries up to this one: it is "public key purpose
    <tag> not supported" when the loop reaches the tag, that is, when the
    entries before it pass, its own value decodes into a verification
    method and the tag is the first unrecognized one among its purposes.
    The answer is the same whatever entries and services follow: no later
    entry is processed. *)
Theorem unsupported_purpose_fails o rw req data pre v post t :
  http.Body req = Ok data ->
  publicKeysOf data = pre ++ v :: post ->
  PublicKey.Recovery v = false ->
  PublicKey.Update v = false ->
  t ∈ PublicKey.Purposes v ->
  t ∉ recognized ->
  (exists reason,
     addPublicKeys (pre ++ [v]) Draft.init = Err reason /\
     registerDIDHandler o rw req =
     (writeResponse rw (failed (RegisterDIDRequest.JobID data) reason), [])) /\
  (forall ps1 ps2,
     is_Ok (addPublicKeys pre Draft.init) ->
     is_Ok (methodOf v) ->
     PublicKey.Purposes v = ps1 ++ t :: ps2 ->
     Forall (fun p => p ∈ recognized) ps1 ->
     registerDIDHandler o rw req =
     (writeResponse rw
        (failed (RegisterDIDRequest.JobID data) ("public key purpose " +:+ t +:+ " not supported")),
      [])) /\
  (forall req' data' post',
     http.Body req' = Ok data' ->
     RegisterDIDRequest.JobID data' = RegisterDIDRequest.JobID data ->
     publicKeysOf data' = pre ++ v :: post' ->
     registerDIDHandler o rw req' = registerDIDHandler o rw req).
Proof.
  intros Eb Hkeys Hrec Hupd Hin Ht.
  assert (Hord : ordinary v = true) by (by apply ordinary_true).
  apply relationshipOf_unrecognized in Ht.
  assert (Hv : forall a, exists e, addPublicKey v a = Err e).
  { intros a. rewrite addPublicKey_ordinary by done.
    destruct (methodOf v) as [vm|e]; simpl; [|eauto].
    destruct (addPurposes_unsupported vm _ t (Draft.didDoc a) ltac:(by apply list_elem_of_In) Ht)
      as [e ->]. simpl. eauto. }
  assert (Hfail : exists reason, addPublicKeys (pre ++ [v]) Draft.init = Err reason).
  { rewrite addPublicKeys_app. destruct (addPublicKeys pre Draft.init) as [a1|e]; simpl; [|eauto].
    destruct (Hv a1) as [e ->]. simpl. eauto. }
  destruct Hfail as [reason Hfail].
  assert (Hans : forall req' data' post',
             http.Body req' = Ok data' -> publicKeysOf data' = pre ++ v :: post' ->
             registerDIDHandler o rw req' =
             (writeResponse rw (failed (RegisterDIDRequest.JobID data') reason), [])).
  { intros req' data' post' Eb' Hk'.
    apply (register_fails_within o rw req' data' (pre ++ [v]) post'); [done| |done].
    by rewrite <- app_assoc. }
  split; [exists reason; eauto|]. split.
  - intros ps1 ps2 [a1 Hpre] [vm Hvm] Hps HF.
    apply (register_fails_within o rw req data (pre ++ [v]) post); [done|by rewrite <- app_assoc|].
    rewrite addPublicKeys_app, Hpre. simpl.
    rewrite addPublicKey_ordinary, Hvm by done. simpl.
    rewrite Hps, addPurposes_first_unsupported; [done| |done].
    by apply Forall_recognized.
  - intros req' data' post' Eb' Hj Hk'.
    rewrite (Hans req' data' post' Eb' Hk'), (Hans req data post Eb Hkeys). by rewrite Hj.
Qed.

(** C6, amended.  A key entry whose key type is neither Ed25519 nor P-256
    fails its request: the answer is a failure and no document goes to the
    backend.  The reason is the one with which the loop fails on the
    entries up to this one: it is "invalid key type: <type>" when the loop
    reaches the key type of the entry, that is, when the entries before it
    pass and its own value is base64 text.  The answer is the same
    whatever entries and services follow: no later entry is processed. *)
Theorem invalid_key_type_fails o rw req data pre v post :
  http.Body req = Ok data ->
  publicKeysOf data = pre ++ v :: post ->
  PublicKey.KeyType v <> Ed25519KeyType ->
  PublicKey.KeyType v <> P256KeyType ->
  (exists reason,
     addPublicKeys (pre ++ [v]) Draft.init = Err reason /\
     registerDIDHandler o rw req =
     (writeResponse rw (failed (RegisterDIDRequest.JobID data) reason), [])) /\
  (is_Ok (addPublicKeys pre Draft.init) ->
   is_Ok (base64_DecodeString (PublicKey.Value v)) ->
   registerDIDHandler o rw req =
   (writeResponse rw
      (failed (RegisterDIDRequest.JobID data) ("invalid key type: " +:+ PublicKey.KeyType v)),
    [])) /\
  (forall req' data' post',
     http.Body req' = Ok data' ->
     RegisterDIDRequest.JobID data' = RegisterDIDRequest.JobID data ->
     publicKeysOf data' = pre ++ v :: post' ->
     registerDIDHandler o rw req' = registerDIDHandler o rw req).
Proof.
  intros Eb Hkeys H1 H2.
  assert (Hv : forall a,
             addPublicKey v a =
             match base64_DecodeString (PublicKey.Value v) with
             | Ok _ => Err ("invalid key type: " +:+ PublicKey.KeyType v)
             | Err e => Err ("failed to decode public key value : " +:+ e)
             end).
  { intros a. unfold addPublicKey.
    destruct (base64_DecodeString _) as [keyValue|e]; [|done].
    by rewrite getKey_invalid. }
  assert (Hfail : exists reason, addPublicKeys (pre ++ [v]) Draft.init = Err reason).
  { rewrite addPublicKeys_app. destruct (addPublicKeys pre Draft.init) as [a1|e]; simpl; [|eauto].
    rewrite Hv. destruct (base64_DecodeString _); simpl; eauto. }
  destruct Hfail as [reason Hfail].
  assert (Hans : forall req' data' post',
             http.Body req' = Ok data' -> publicKeysOf data' = pre ++ v :: post' ->
             registerDIDHandler o rw req' =
             (writeResponse rw (failed (RegisterDIDRequest.JobID data') reason), [])).
  { intros req' data' post' Eb' Hk'.
    apply (register_fails_within o rw req' data' (pre ++ [v]) post'); [done| |done].
    by rewrite <- app_assoc. }
  split; [exists reason; eauto|]. split.
  - intros [a1 Hpre] [keyValue Hb].
    apply (register_fails_within o rw req data (pre ++ [v]) post); [done|by rewrite <- app_assoc|].
    rewrite addPublicKeys_app, Hpre. simpl. by rewrite Hv, Hb.
  - intros req' data' post' Eb' Hj Hk'.
    rewrite (Hans req' data' post' Eb' Hk'), (Hans req data post Eb Hkeys). by rewrite Hj.
Qed.

(** C2.  The decoder of keys of type [P256KeyType] passes the bytes to
    the curve's point decoder and wraps whatever comes back, without
    looking at it: whatever the bytes, [getKey] returns a key and no
    error.  So a recovery key entry of this type whose value is base64
    text for bytes that are not the encoding of a point, for which the
    point decoder returns no coordinates, does not fail its request:
    decoding gives a key without coordinates, and when the other entries
    of the request pass, the handler calls the backend once, with that key
    as the recovery option; when the backend accepts, the answer is a
    finished registration, status 200 on a writer without a status. *)
Theorem getKey_P256_accepts_invalid_point o rw req data pre v post value :
  http.Body req = Ok data ->
  publicKeysOf data = pre ++ v :: post ->
  PublicKey.KeyType v = P256KeyType ->
  PublicKey.Recovery v = true ->
  base64_DecodeString (PublicKey.Value v) = Ok value ->
  elliptic_Unmarshal P256 value = (None, None) ->
  is_Ok (addPublicKeys (pre ++ post) Draft.init) ->
  (forall value',
     getKey P256KeyType value' =
     Ok (ECDSAPublicKey (elliptic_Unmarshal P256 value').1
           (elliptic_Unmarshal P256 value').2 P256)) /\
  getKey (PublicKey.KeyType v) value = Ok (ECDSAPublicKey None None P256) /\
  exists d opts,
    (registerDIDHandler o rw req).2 = [VDR.CreateCall d opts] /\
    opts =
      flat_map keyOpts pre ++
      [vdr.WithOption trustbloc.RecoveryPublicKeyOpt (ECDSAPublicKey None None P256)] ++
      flat_map keyOpts post /\
    (forall res,
       VDR.Create (Operation.blocVDRI o) d opts = Ok res ->
       (registerDIDHandler o rw req).1 =
       http.mkResponseWriter
         (Some (match http.status rw with Some s => s | None => 200 end))
         (http.header rw)
         (http.body rw ++
          [http.JSON
             (RegisterResponse.mk (RegisterDIDRequest.JobID data)
                (DIDState.mk (did.Doc.ID (did.DocResolution.DIDDocument res)) ""
                   RegistrationStateFinished
                   (Secret.mk
                      (createKeys (track (pre ++ post) ∅)
                         (did.Doc.ID (did.DocResolution.DIDDocument res))))))])).
Proof.
  intros Eb Hkeys Hkt Hrec Hb64 Hun [a0 Hok].
  split; [intros value'; apply getKey_P256|].
  assert (Hg : getKey (PublicKey.KeyType v) value = Ok (ECDSAPublicKey None None P256)).
  { by rewrite Hkt, getKey_P256, Hun. }
  split; [done|].
  assert (Hk : keyOf v = Ok (ECDSAPublicKey None None P256)).
  { unfold keyOf. by rewrite Hb64. }
  assert (Hflag : ordinary v = false) by (apply ordinary_false; by left).
  rewrite addPublicKeys_app in Hok.
  apply bind_Ok_inv in Hok as (a1 & Hpre & Hpost).
  assert (Hv : addPublicKey v a1 =
               Ok (Draft.mk (Draft.didDoc a1)
                     (Draft.didMethodOpt a1 ++
                      [vdr.WithOption (optNameOf v) (ECDSAPublicKey None None P256)])
                     (Draft.keysID a1))).
  { by rewrite addPublicKey_flagged, Hk. }
  destruct (addPublicKeys_is_Ok_irrel post a1
              (Draft.mk (Draft.didDoc a1)
                 (Draft.didMethodOpt a1 ++
                  [vdr.WithOption (optNameOf v) (ECDSAPublicKey None None P256)])
                 (Draft.keysID a1))) as [a Ha]; [by exists a0|].
  assert (Ea : addPublicKeys (publicKeysOf data) Draft.init = Ok a).
  { rewrite Hkeys, addPublicKeys_app, Hpre. simpl. by rewrite Hv. }
  assert (Hne : publicKeysOf data <> []).
  { rewrite Hkeys. by destruct pre. }
  destruct (addPublicKeys_Ok _ _ _ Ea) as (_ & _ & _ & _ & Ho & Hm).
  rewrite Hkeys in Ho, Hm.
  assert (Hopts : Draft.didMethodOpt a =
                  flat_map keyOpts pre ++
                  [vdr.WithOption trustbloc.RecoveryPublicKeyOpt
                     (ECDSAPublicKey None None P256)] ++
                  flat_map keyOpts post).
  { rewrite Ho, flat_map_app. simpl. unfold keyOpts at 2, optNameOf.
    by rewrite Hflag, Hk, Hrec. }
  assert (Hmap : Draft.keysID a = track (pre ++ post) ∅).
  { rewrite Hm, !track_app, track_cons. by rewrite Hflag. }
  rewrite (register_submit o rw req data a Eb Hne Ea). cbn [fst snd].
  eexists _, _. split; [reflexivity|]. split; [exact Hopts|].
  intros res ->. rewrite Hmap.
  unfold writeResponse, finished, http.Write, http.WriteHeader.
  by destruct rw as [[s|] h b].
Qed.

End Claims.

(** * Beyond the claims *)

Lemma flat_map_all_nil {A B} (f : A -> list B) (l : list A) :
  (forall x, x ∈ l -> f x = []) -> flat_map f l = [].
Proof.
  induction l as [|x l IH]; intros H; [done|]. simpl.
  rewrite (H x) by left. apply IH. intros y Hy. apply H. by right.
Qed.

(** ** More on the loops *)

Section LoopFacts.
Context {JWK VM : Type} {L : GoLibs JWK VM}.
Implicit Types (v : PublicKey.t) (a b : Draft.t VM) (d : did.Doc.t VM) (vm : VM)
  (keys : list PublicKey.t).

(** The reason with which the purposes loop fails does not depend on the
    document it started from. *)
Lemma addPurposes_Err_irrel vm ps d d' e :
  addPurposes vm ps d = Err e -> addPurposes vm ps d' = Err e.
Proof.
  revert d d'. induction ps as [|p ps IH]; intros d d'; simpl; [discriminate|].
  destruct (addPurpose vm p d) as [d1|e1] eqn:E1; simpl.
  - apply addPurpose_Ok in E1 as ([r Hr] & _).
    destruct (addPurpose_supported vm p d' r Hr) as [d1' ->]. simpl. apply IH.
  - apply addPurpose_Err in E1 as [Hn ->]. intros [= <-].
    by rewrite addPurpose_unsupported.
Qed.

(** The reason with which a turn of the key loop fails does not depend on
    the state it started from. *)
Lemma addPublicKey_Err_irrel v a b e :
  addPublicKey v a = Err e -> addPublicKey v b = Err e.
Proof.
  destruct (ordinary v) eqn:Eo.
  - rewrite !addPublicKey_ordinary by done.
    destruct (methodOf v) as [vm|e1]; simpl; [|done].
    destruct (addPurposes vm _ (Draft.didDoc a)) as [d1|e1] eqn:E1; simpl; [discriminate|].
    intros [= <-]. by rewrite (addPurposes_Err_irrel vm _ _ (Draft.didDoc b) _ E1).
  - rewrite !addPublicKey_flagged by done. by destruct (keyOf v).
Qed.

(** The loop runs to its end exactly when every entry passes a turn of
    its own. *)
Lemma addPublicKeys_is_Ok_iff keys a :
  is_Ok (addPublicKeys keys a) <->
  Forall (fun v => is_Ok (addPublicKey v Draft.init)) keys.
Proof.
  revert a. induction keys as [|v keys IH]; intros a; simpl.
  - split; [constructor | intros _; apply is_Ok_Ok].
  - rewrite Forall_cons. split.
    + intros [a' H]. apply bind_Ok_inv in H as (a1 & H1 & H2). split.
      * apply (addPublicKey_is_Ok_irrel v a). by exists a1.
      * apply (IH a1). by exists a'.
    + intros [Hv Hk].
      destruct (addPublicKey_is_Ok_irrel v Draft.init a Hv) as [a1 ->]. simpl.
      by apply IH.
Qed.

(** The loop fails with the reason of the first entry that fails a turn
    of its own. *)
Lemma addPublicKeys_first_failure pre v post a e :
  Forall (fun w => is_Ok (addPublicKey w Draft.init)) pre ->
  addPublicKey v Draft.init = Err e ->
  addPublicKeys (pre ++ v :: post) a = Err e.
Proof.
  revert a. induction pre as [|w pre IH]; intros a Hpre Hv; simpl.
  - by rewrite (addPublicKey_Err_irrel v Draft.init a e Hv).
  - apply Forall_cons in Hpre as [Hw Hpre].
    destruct (addPublicKey_is_Ok_irrel w Draft.init a Hw) as [a1 ->]. simpl. auto.
Qed.

Lemma addServices_Service services d :
  did.Doc.Service (addServices services d) = did.Doc.Service d ++ (didService <$> services).
Proof.
  unfold addServices. revert d. induction services as [|s services IH]; intros d; simpl.
  - by rewrite app_nil_r.
  - rewrite IH. destruct d. simpl. by rewrite <- app_assoc.
Qed.

Lemma keyRefs_flagged r v : ordinary v = false -> keyRefs r v = [].
Proof. unfold keyRefs. by intros ->. Qed.

Lemma keyRefs_ordinary r v vm :
  ordinary v = true -> methodOf v = Ok vm ->
  keyRefs r v = purposeRefs vm r (PublicKey.Purposes v).
Proof. unfold keyRefs. by intros -> ->. Qed.

Lemma elem_of_purposeRefs vm r ps (x : did.Verification.t VM) :
  x ∈ purposeRefs vm r ps <->
  x = did.Verification.mk vm r false /\ exists p, p ∈ ps /\ relationshipOf p = Some r.
Proof.
  unfold purposeRefs. rewrite list_elem_of_In, in_flat_map. split.
  - intros (p & Hp & Hx). apply list_elem_of_In in Hp.
    destruct (decide (relationshipOf p = Some r)) as [Hr|Hr]; [|destruct Hx].
    destruct Hx as [<-|[]]. eauto.
  - intros (-> & p & Hp & Hr). exists p. split; [by apply list_elem_of_In|].
    rewrite decide_True by done. by left.
Qed.

Lemma keyOpts_flagged v k :
  ordinary v = false -> keyOf v = Ok k -> keyOpts v = [vdr.WithOption (optNameOf v) k].
Proof. unfold keyOpts. by intros -> ->. Qed.

Lemma keyOpts_ordinary v : ordinary v = true -> keyOpts v = [].
Proof. unfold keyOpts. by intros ->. Qed.

(** The options of a loop that ran to its end: one for each flagged
    entry. *)
Lemma flat_map_keyOpts_length keys a a' :
  addPublicKeys keys a = Ok a' ->
  length (flat_map keyOpts keys) = length (filter (fun v => ordinary v = false) keys).
Proof.
  revert a. induction keys as [|v keys IH]; intros a H; [done|].
  simpl in H. apply bind_Ok_inv in H as (a1 & H1 & H2).
  simpl. rewrite length_app, (IH a1 H2), filter_cons.
  destruct (addPublicKey_Ok_key v a a1 H1) as [[k Hk] _].
  destruct (ordinary v) eqn:Eo.
  - by rewrite keyOpts_ordinary.
  - by rewrite (keyOpts_flagged v k).
Qed.


(** The ids that survive in [lastPerID] are the ids declared. *)
Lemma lastPerID_ids keys i :
  (exists v, v ∈ lastPerID keys /\ PublicKey.ID v = i) <->
  (exists v, v ∈ keys /\ PublicKey.ID v = i).
Proof.
  split.
  - intros (v & Hv & Hi). exists v. split; [by apply lastPerID_subseteq | done].
  - induction keys as [|w keys IH]; intros (v & Hv & Hi); [inversion Hv|].
    simpl. destruct (declares (PublicKey.ID w) keys) eqn:E.
    + apply IH. apply elem_of_cons in Hv as [->|Hv]; [|eauto].
      apply declares_true in E as (u & Hu & Hui). exists u. split; [done | congruence].
    + apply elem_of_cons in Hv as [->|Hv].
      * exists w. split; [left | done].
      * destruct IH as (u & Hu & Hui); [eauto|]. exists u. split; [by right | done].
Qed.

Lemma track_empty_of_flagged keys m :
  Forall (fun v => ordinary v = false) keys -> track keys m = m.
Proof.
  intros H. unfold track. rewrite filter_none; [done|].
  intros v Hv. rewrite Forall_forall in H. rewrite (H v Hv). discriminate.
Qed.

Lemma createKeys_empty didID : createKeys ∅ didID = [].
Proof.
  rewrite createKeys_fmap.
  assert (rangeOrder (∅ : gmap string bytes) = []) as ->; [|done].
  apply Permutation_nil_r. by rewrite rangeOrder_perm, map_to_list_empty.
Qed.

End LoopFacts.

(** ** The registration handler, beyond the claims *)

Section Registration.
Context {JWK VM : Type} {L : GoLibs JWK VM}.
Implicit Types (o : Operation.t VM) (rw : http.ResponseWriter) (req : http.Request)
  (data : RegisterDIDRequest.t) (v : PublicKey.t) (a : Draft.t VM).

(** X1.  On a writer without a status the handler answers a body that
    does not decode with status 400 and the text "invalid request:
    <error>", and every body that decodes with status 200 and one JSON
    payload that carries the job identifier of the request, whatever the
    outcome of the registration. *)
Theorem register_status_and_body o req :
  match http.Body req with
  | Err e =>
    registerDIDHandler o http.fresh req =
    (http.mkResponseWriter (Some 400) [] [http.Text ("invalid request: " +:+ e)], [])
  | Ok data =>
    exists st,
      (registerDIDHandler o http.fresh req).1 =
      http.mkResponseWriter (Some 200) []
        [http.JSON (RegisterResponse.mk (RegisterDIDRequest.JobID data) st)]
  end.
Proof.
  unfold registerDIDHandler. destruct (http.Body req) as [data|e]; [|done].
  destruct (DIDDocument.PublicKey _) as [|v keys]; [by eexists|].
  simpl length. simpl Nat.eqb. cbv iota.
  destruct (addPublicKeys _ _) as [a|reason]; [|by eexists].
  cbv zeta. destruct (VDR.Create _ _ _); by eexists.
Qed.

(** X2.  The answer to a decoded request is of one of two kinds.  A
    failure carries a reason, no identifier and no keys; the backend was
    not called, or it was called once and returned the error the reason
    reports.  A finished answer carries the identifier of the document the
    backend returned from the one create call.  The handler never reads
    from the backend. *)
Theorem register_no_partial_result o rw req data :
  http.Body req = Ok data ->
  (exists reason,
     (registerDIDHandler o rw req).1 =
       writeResponse rw
         (RegisterResponse.mk (RegisterDIDRequest.JobID data)
            (DIDState.mk "" reason RegistrationStateFailure (Secret.mk []))) /\
     ((registerDIDHandler o rw req).2 = [] \/
      exists d opts e,
        (registerDIDHandler o rw req).2 = [VDR.CreateCall d opts] /\
        VDR.Create (Operation.blocVDRI o) d opts = Err e /\
        reason = "failed to create did doc : " +:+ e)) \/
  (exists d opts res keys,
     (registerDIDHandler o rw req).2 = [VDR.CreateCall d opts] /\
     VDR.Create (Operation.blocVDRI o) d opts = Ok res /\
     (registerDIDHandler o rw req).1 =
       writeResponse rw
         (RegisterResponse.mk (RegisterDIDRequest.JobID data)
            (DIDState.mk (did.Doc.ID (did.DocResolution.DIDDocument res)) ""
               RegistrationStateFinished (Secret.mk keys)))).
Proof.
  intros Eb. destruct (publicKeysOf data) as [|v keys] eqn:Ek.
  { left. rewrite (register_no_keys o rw req data Eb Ek). eauto. }
  assert (Hne : publicKeysOf data <> []) by (by rewrite Ek).
  destruct (addPublicKeys (publicKeysOf data) Draft.init) as [a|reason] eqn:Ea.
  2:{ left. rewrite (register_key_failure o rw req data reason Eb Ea). eauto. }
  rewrite (register_submit o rw req data a Eb Hne Ea). cbn [fst snd].
  destruct (VDR.Create _ _ _) as [res|e] eqn:Ec.
  - right. by eexists _, _, res, _.
  - left. eexists. split; [done|]. right. by eexists _, _, e.
Qed.

(** X3.  The handler calls the backend exactly when the body decodes, the
    request has at least one key, and every key entry passes a turn of
    the loop on its own: whether an entry is accepted does not depend on
    the other entries. *)
Theorem backend_called_iff_every_key_passes o rw req :
  (exists d opts, (registerDIDHandler o rw req).2 = [VDR.CreateCall d opts]) <->
  (exists data,
     http.Body req = Ok data /\
     publicKeysOf data <> [] /\
     Forall (fun v => is_Ok (addPublicKey v Draft.init)) (publicKeysOf data)).
Proof.
  split.
  - intros (d & opts & Hc).
    destruct (register_calls_inv o rw req (VDR.CreateCall d opts))
      as (data & a & Eb & Hne & Ea & _).
    { rewrite Hc. left. }
    exists data. split; [done|]. split; [done|].
    apply (addPublicKeys_is_Ok_iff _ Draft.init). by exists a.
  - intros (data & Eb & Hne & HF).
    destruct (proj2 (addPublicKeys_is_Ok_iff _ Draft.init) HF) as [a Ea].
    rewrite (register_submit o rw req data a Eb Hne Ea). by eexists _, _.
Qed.

(** X4.  When the entries before an entry pass on their own and the entry
    fails on its own with some reason, the request fails with that
    reason, without a backend call, whatever entries follow, whatever the
    services and whatever the backend. *)
Theorem first_failing_entry_gives_reason o rw req data pre v post e :
  http.Body req = Ok data ->
  publicKeysOf data = pre ++ v :: post ->
  Forall (fun w => is_Ok (addPublicKey w Draft.init)) pre ->
  addPublicKey v Draft.init = Err e ->
  registerDIDHandler o rw req =
  (writeResponse rw (failed (RegisterDIDRequest.JobID data) e), []).
Proof.
  intros Eb Hk Hpre Hv. apply register_key_failure; [done|].
  rewrite Hk. by apply addPublicKeys_first_failure.
Qed.

(** X5.  A turn of the key loop fails for one of five causes, in this
    order of precedence: the value is not base64 text ("failed to decode
    public key value : <error>"); the key type is unknown ("invalid key
    type: <type>"); and, for an ordinary key only, the JWK cannot be
    built or the verification method cannot be built (the library's
    error as it is), or a purpose is not recognized ("public key purpose
    <tag> not supported"). *)
Theorem entry_failure_reasons v a e :
  addPublicKey v a = Err e ->
  (exists e0,
     base64_DecodeString (PublicKey.Value v) = Err e0 /\
     e = "failed to decode public key value : " +:+ e0) \/
  (exists keyValue,
     base64_DecodeString (PublicKey.Value v) = Ok keyValue /\
     PublicKey.KeyType v <> Ed25519KeyType /\ PublicKey.KeyType v <> P256KeyType /\
     e = "invalid key type: " +:+ PublicKey.KeyType v) \/
  (exists k,
     ordinary v = true /\ keyOf v = Ok k /\ jwksupport_JWKFromKey k = Err e) \/
  (exists k jwk,
     ordinary v = true /\ keyOf v = Ok k /\ jwksupport_JWKFromKey k = Ok jwk /\
     did_NewVerificationMethodFromJWK (PublicKey.ID v) (PublicKey.Type' v) "" jwk = Err e) \/
  (exists vm t,
     ordinary v = true /\ methodOf v = Ok vm /\
     (t ∈ PublicKey.Purposes v) /\ (t ∉ recognized) /\
     e = "public key purpose " +:+ t +:+ " not supported").
Proof.
  intros H.
  destruct (base64_DecodeString (PublicKey.Value v)) as [keyValue|e0] eqn:Eb.
  2:{ left. exists e0. split; [done|]. unfold addPublicKey in H. rewrite Eb in H. congruence. }
  right.
  destruct (getKey (PublicKey.KeyType v) keyValue) as [k|e1] eqn:Eg.
  2:{ left. exists keyValue. unfold addPublicKey in H. rewrite Eb, Eg in H. simpl in H.
      injection H as <-. unfold getKey in Eg.
      destruct (String.eqb_spec (PublicKey.KeyType v) Ed25519KeyType); [discriminate|].
      destruct (String.eqb_spec (PublicKey.KeyType v) P256KeyType).
      - by destruct (elliptic_Unmarshal P256 keyValue).
      - by injection Eg as <-. }
  right.
  assert (Hk : keyOf v = Ok k) by (unfold keyOf; by rewrite Eb).
  destruct (ordinary v) eqn:Eo.
  2:{ rewrite addPublicKey_flagged, Hk in H by done. discriminate. }
  rewrite addPublicKey_ordinary in H by done. unfold methodOf in H. rewrite Hk in H. simpl in H.
  destruct (jwksupport_JWKFromKey k) as [jwk|e2] eqn:Ej; simpl in H.
  2:{ left. exists k. by injection H as <-. }
  right.
  destruct (did_NewVerificationMethodFromJWK _ _ _ jwk) as [vm|e3] eqn:Ev; simpl in H.
  2:{ left. exists k, jwk. by injection H as <-. }
  right. exists vm.
  assert (Hvm : methodOf v = Ok vm) by (unfold methodOf; rewrite Hk; simpl; by rewrite Ej).
  destruct (addPurposes vm _ (Draft.didDoc a)) as [d|e4] eqn:Ep; simpl in H; [discriminate|].
  injection H as <-.
  assert (Hex : exists t, t ∈ PublicKey.Purposes v /\ relationshipOf t = None /\
                          e4 = "public key purpose " +:+ t +:+ " not supported").
  { clear Hvm Ev. revert Ep. generalize (Draft.didDoc a). generalize (PublicKey.Purposes v).
    intros ps. induction ps as [|p ps IH]; intros d0; simpl; [discriminate|].
    destruct (addPurpose vm p d0) as [d1|e5] eqn:E1; simpl.
    - intros Hr. destruct (IH d1 Hr) as (t & Ht & Hn & He). exists t. split; [by right | done].
    - intros [= <-]. apply addPurpose_Err in E1 as [Hn ->]. exists p. split; [left | done]. }
  destruct Hex as (t & Ht & Hn & ->). exists t.
  split; [done|]. split; [done|]. split; [done|]. split; [|done].
  by apply relationshipOf_unrecognized.
Qed.

End Registration.

(** ** What the backend is given *)

Section Submission.
Context {JWK VM : Type} {L : GoLibs JWK VM}.
Implicit Types (o : Operation.t VM) (rw : http.ResponseWriter) (req : http.Request)
  (data : RegisterDIDRequest.t) (v : PublicKey.t) (a : Draft.t VM).

(** X6.  The document the backend is given holds the services of the
    request, field for field and in their order, whatever they are; it has
    no identifier and an empty list of verification methods. *)
Theorem submitted_services_verbatim o rw req d opts :
  (registerDIDHandler o rw req).2 = [VDR.CreateCall d opts] ->
  exists data,
    http.Body req = Ok data /\
    did.Doc.Service d = didService <$> servicesOf data /\
    did.Doc.ID d = "" /\
    did.Doc.VerificationMethod d = [].
Proof.
  intros Hc.
  destruct (register_calls_inv o rw req (VDR.CreateCall d opts))
    as (data & a & Eb & _ & Ea & [= -> ->]).
  { rewrite Hc. left. }
  exists data. split; [done|].
  destruct (addPublicKeys_Ok _ _ _ Ea) as (Hi & Hv & Hs & _).
  destruct (addServices_fields (servicesOf data) (Draft.didDoc a)) as (-> & -> & _).
  rewrite addServices_Service, Hs, Hi, Hv. done.
Qed.

(** X7.  Every bucket of the document the backend is given is the
    concatenation, in the order of submission, of what each key entry
    contributes: nothing for a recovery or update key, and for an ordinary
    key one reference to its verification method for each occurrence of
    the bucket's tag among its purposes.  Nothing is reordered, merged or
    dropped. *)
Theorem submitted_buckets_in_submission_order o rw req d opts :
  (registerDIDHandler o rw req).2 = [VDR.CreateCall d opts] ->
  exists data,
    http.Body req = Ok data /\
    (forall r, did.Doc.bucket r d = flat_map (keyRefs r) (publicKeysOf data)) /\
    (forall v, v ∈ publicKeysOf data ->
       if ordinary v
       then exists vm,
              methodOf v = Ok vm /\
              forall r, keyRefs r v =
                        flat_map (fun p => if decide (relationshipOf p = Some r)
                                           then [did.Verification.mk vm r false] else [])
                                 (PublicKey.Purposes v)
       else forall r, keyRefs r v = []).
Proof.
  intros Hc.
  destruct (register_calls_inv o rw req (VDR.CreateCall d opts))
    as (data & a & Eb & _ & Ea & [= -> ->]).
  { rewrite Hc. left. }
  exists data. split; [done|]. split.
  - intros r. destruct (addPublicKeys_Ok _ _ _ Ea) as (_ & _ & _ & Hb & _).
    by rewrite addServices_bucket, Hb, bucket_init.
  - intros v Hv. destruct (addPublicKeys_Ok_key _ _ _ v Ea Hv) as [_ Ho].
    destruct (ordinary v) eqn:Eo.
    + destruct (Ho eq_refl) as [[vm Hvm] _]. exists vm. split; [done|].
      intros r. by rewrite (keyRefs_ordinary r v vm).
    + intros r. by apply keyRefs_flagged.
Qed.

(** X8.  Every entry of every bucket of the document the backend is given
    is a reference, not an embedded method; its relationship is that of
    its bucket; and its verification method is the one built for an
    ordinary key of the request that declares a purpose naming the
    bucket. *)
Theorem bucket_entries_are_references o rw req d opts r x :
  (registerDIDHandler o rw req).2 = [VDR.CreateCall d opts] ->
  x ∈ did.Doc.bucket r d ->
  did.Verification.Relationship x = r /\
  did.Verification.Embedded x = false /\
  exists data v p,
    http.Body req = Ok data /\
    v ∈ publicKeysOf data /\
    ordinary v = true /\
    methodOf v = Ok (did.Verification.VerificationMethod x) /\
    p ∈ PublicKey.Purposes v /\
    relationshipOf p = Some r.
Proof.
  intros Hc Hx.
  destruct (register_calls_inv o rw req (VDR.CreateCall d opts))
    as (data & a & Eb & _ & Ea & [= -> ->]).
  { rewrite Hc. left. }
  destruct (addPublicKeys_Ok _ _ _ Ea) as (_ & _ & _ & Hb & _).
  rewrite addServices_bucket, Hb, bucket_init in Hx. simpl in Hx.
  apply list_elem_of_In, in_flat_map in Hx as (v & Hv & Hx).
  apply list_elem_of_In in Hv. apply list_elem_of_In in Hx.
  destruct (addPublicKeys_Ok_key _ _ _ v Ea Hv) as [_ Ho].
  destruct (ordinary v) eqn:Eo; [|by rewrite keyRefs_flagged in Hx; [inversion Hx|]].
  destruct (Ho eq_refl) as [[vm Hvm] _].
  rewrite (keyRefs_ordinary r v vm Eo Hvm) in Hx.
  apply elem_of_purposeRefs in Hx as (-> & p & Hp & Hr).
  split; [done|]. split; [done|]. by exists data, v, p.
Qed.

(** X9.  The options the backend is given are, in the order of
    submission, one option for each recovery or update key of the
    request, holding the decoded key of the entry; several recovery keys
    give several recovery options.  An ordinary key gives none. *)
Theorem submitted_options_in_submission_order o rw req d opts :
  (registerDIDHandler o rw req).2 = [VDR.CreateCall d opts] ->
  exists data,
    http.Body req = Ok data /\
    opts = flat_map keyOpts (publicKeysOf data) /\
    length opts = length (filter (fun v => ordinary v = false) (publicKeysOf data)) /\
    (forall v, v ∈ publicKeysOf data ->
       if ordinary v then keyOpts v = []
       else exists k,
              base64_DecodeString (PublicKey.Value v) = Ok (rawBytes v) /\
              getKey (PublicKey.KeyType v) (rawBytes v) = Ok k /\
              keyOpts v =
                [vdr.WithOption (if PublicKey.Recovery v then trustbloc.RecoveryPublicKeyOpt
                                 else trustbloc.UpdatePublicKeyOpt) k]).
Proof.
  intros Hc.
  destruct (register_calls_inv o rw req (VDR.CreateCall d opts))
    as (data & a & Eb & _ & Ea & [= -> ->]).
  { rewrite Hc. left. }
  exists data. split; [done|].
  destruct (addPublicKeys_Ok _ _ _ Ea) as (_ & _ & _ & _ & Ho & _).
  simpl in Ho. split; [done|]. split.
  - rewrite Ho. by apply (flat_map_keyOpts_length _ Draft.init a).
  - intros v Hv. destruct (addPublicKeys_Ok_key _ _ _ v Ea Hv) as [[k Hk] _].
    destruct (ordinary v) eqn:Eo; [by apply keyOpts_ordinary|].
    exists k. destruct (keyOf_Ok v k Hk) as [Hb Hg].
    split; [done|]. split; [done|]. by apply keyOpts_flagged.
Qed.

(** X14.  A request all of whose keys are recovery or update keys and
    that reaches the backend submits a document whose buckets are all
    empty, with one option for each key, and, when the backend accepts
    it, finishes with an empty secret bundle. *)
Theorem only_flagged_keys o rw req data d opts :
  http.Body req = Ok data ->
  Forall (fun v => ordinary v = false) (publicKeysOf data) ->
  (registerDIDHandler o rw req).2 = [VDR.CreateCall d opts] ->
  (forall r, did.Doc.bucket r d = []) /\
  length opts = length (publicKeysOf data) /\
  forall res,
    VDR.Create (Operation.blocVDRI o) d opts = Ok res ->
    (registerDIDHandler o rw req).1 =
    writeResponse rw
      (finished (RegisterDIDRequest.JobID data)
         (did.Doc.ID (did.DocResolution.DIDDocument res)) []).
Proof.
  intros Eb HF Hc.
  destruct (register_calls_inv o rw req (VDR.CreateCall d opts))
    as (data' & a & Eb' & Hne & Ea & [= -> ->]).
  { rewrite Hc. left. }
  assert (data' = data) as -> by congruence.
  destruct (addPublicKeys_Ok _ _ _ Ea) as (_ & _ & _ & Hb & Ho & Hk).
  split; [|split].
  - intros r. rewrite addServices_bucket, Hb, bucket_init. simpl.
    apply flat_map_all_nil. rewrite Forall_forall in HF.
    intros v Hv. by apply keyRefs_flagged, HF.
  - rewrite Ho. simpl. rewrite (flat_map_keyOpts_length _ Draft.init a Ea).
    f_equal. clear -HF. induction HF as [|v keys Hv HF IH]; [done|].
    by rewrite filter_cons, decide_True, IH.
  - intros res He. rewrite (register_submit o rw req data a Eb Hne Ea). cbn [fst snd].
    rewrite He, Hk. simpl. by rewrite (track_empty_of_flagged _ _ HF), createKeys_empty.
Qed.

End Submission.

(** ** Flags, purposes and the secret bundle *)

Section Flags.
Context {JWK VM : Type} {L : GoLibs JWK VM}.
Implicit Types (o : Operation.t VM) (rw : http.ResponseWriter) (req : http.Request)
  (data : RegisterDIDRequest.t) (v : PublicKey.t) (a : Draft.t VM).

(** Two requests with the same job identifier and services whose key
    loops end alike are answered alike. *)
Lemma register_ext o rw req req' data data' :
  http.Body req = Ok data -> http.Body req' = Ok data' ->
  RegisterDIDRequest.JobID data' = RegisterDIDRequest.JobID data ->
  servicesOf data' = servicesOf data ->
  publicKeysOf data <> [] -> publicKeysOf data' <> [] ->
  addPublicKeys (publicKeysOf data') Draft.init = addPublicKeys (publicKeysOf data) Draft.init ->
  registerDIDHandler o rw req' = registerDIDHandler o rw req.
Proof.
  intros Eb Eb' Hj Hs Hne Hne' Hk.
  destruct (addPublicKeys (publicKeysOf data) Draft.init) as [a|reason] eqn:Ea.
  - rewrite (register_submit o rw req data a Eb Hne Ea).
    rewrite (register_submit o rw req' data' a Eb' Hne' Hk). by rewrite Hj, Hs.
  - rewrite (register_key_failure o rw req data reason Eb Ea).
    rewrite (register_key_failure o rw req' data' reason Eb' Hk). by rewrite Hj.
Qed.

(** X10.  The purposes of a recovery or update key are never looked at:
    replacing them by any others, unsupported tags included, leaves the
    whole answer and the backend call of the request as they are. *)
Theorem flagged_key_purposes_ignored o rw req req' data data' pre v post ps :
  http.Body req = Ok data -> http.Body req' = Ok data' ->
  RegisterDIDRequest.JobID data' = RegisterDIDRequest.JobID data ->
  servicesOf data' = servicesOf data ->
  publicKeysOf data = pre ++ v :: post ->
  publicKeysOf data' = pre ++ withPurposes ps v :: post ->
  PublicKey.Recovery v = true \/ PublicKey.Update v = true ->
  registerDIDHandler o rw req' = registerDIDHandler o rw req.
Proof.
  intros Eb Eb' Hj Hs Hk Hk' Hflag. apply ordinary_false in Hflag.
  apply (register_ext o rw req req' data data'); try done.
  - rewrite Hk. by destruct pre.
  - rewrite Hk'. by destruct pre.
  - rewrite Hk, Hk', !addPublicKeys_app.
    destruct (addPublicKeys pre Draft.init) as [a1|e]; [|done]. simpl.
    by rewrite (addPublicKey_flagged (withPurposes ps v)), (addPublicKey_flagged v).
Qed.

(** X12.  An ordinary key without purposes, in a request that the backend
    accepts: no bucket of the submitted document holds anything for it,
    so the document does not mention the key, and yet the secret bundle
    has an entry under its id. *)
Theorem ordinary_key_without_purposes o rw req data pre v post d opts res :
  http.Body req = Ok data ->
  publicKeysOf data = pre ++ v :: post ->
  PublicKey.Recovery v = false ->
  PublicKey.Update v = false ->
  PublicKey.Purposes v = [] ->
  (registerDIDHandler o rw req).2 = [VDR.CreateCall d opts] ->
  VDR.Create (Operation.blocVDRI o) d opts = Ok res ->
  let didID := did.Doc.ID (did.DocResolution.DIDDocument res) in
  (forall r, did.Doc.bucket r d = flat_map (keyRefs r) pre ++ flat_map (keyRefs r) post) /\
  exists keys e,
    (registerDIDHandler o rw req).1 =
      writeResponse rw (finished (RegisterDIDRequest.JobID data) didID keys) /\
    e ∈ keys /\
    Key.ID e = didID +:+ "#" +:+ PublicKey.ID v.
Proof.
  intros Eb Hkeys Hrec Hupd Hps Hc He didID.
  assert (Hord : ordinary v = true) by (by apply ordinary_true).
  destruct (register_calls_inv o rw req (VDR.CreateCall d opts))
    as (data' & a & Eb' & Hne & Ea & [= -> ->]).
  { rewrite Hc. left. }
  assert (data' = data) as -> by congruence.
  destruct (addPublicKeys_Ok _ _ _ Ea) as (_ & _ & _ & Hb & _ & Hk).
  split.
  - intros r. rewrite addServices_bucket, Hb, bucket_init, Hkeys, flat_map_app. simpl.
    f_equal. unfold keyRefs at 1. rewrite Hord, Hps. by destruct (methodOf v).
  - rewrite (register_submit o rw req data a Eb Hne Ea). cbn [fst snd]. rewrite He, Hk.
    set (ord := filter (fun v => ordinary v = true) (publicKeysOf data)).
    assert (Hv : v ∈ ord).
    { apply list_elem_of_filter. split; [done|]. rewrite Hkeys. set_solver. }
    destruct (proj2 (lastPerID_ids ord (PublicKey.ID v))) as (w & Hw & Hwi); [eauto|].
    eexists _, (secretOf didID w). split; [done|]. split.
    + simpl. fold didID. rewrite (createKeys_track (publicKeysOf data) didID).
      apply list_elem_of_fmap. eauto.
    + simpl. by rewrite Hwi.
Qed.


(** X15.  Whether the key decoder fails depends on the key type alone,
    never on the bytes: it returns a key for every byte string, the empty
    one included, when the type is Ed25519 or P-256, and fails with
    "invalid key type: <type>" for every byte string otherwise. *)
Theorem getKey_fails_iff_unknown_type keyType value :
  match getKey keyType value with
  | Ok k =>
    (keyType = Ed25519KeyType /\ k = Ed25519PublicKey value) \/
    (keyType = P256KeyType /\ exists x y, k = ECDSAPublicKey x y P256)
  | Err e =>
    keyType <> Ed25519KeyType /\ keyType <> P256KeyType /\
    e = "invalid key type: " +:+ keyType
  end.
Proof.
  unfold getKey.
  destruct (String.eqb_spec keyType Ed25519KeyType) as [->|H1]; [by left|].
  destruct (String.eqb_spec keyType P256KeyType) as [->|H2]; [|done].
  destruct (elliptic_Unmarshal P256 value). right. eauto.
Qed.

(** X16.  The bundle [createKeys] builds has exactly one entry for each
    entry of the map it is given: an entry is in the bundle exactly when
    it is the identifier, "#" and a key of the map with the base58
    encoding of the bytes stored under that key; the bundle has as many
    entries as the map, with pairwise distinct ids. *)
Theorem createKeys_lookup (m : gmap string bytes) didID :
  (forall e, e ∈ createKeys m didID <->
             exists k b, m !! k = Some b /\
                         e = Key.mk (didID +:+ "#" +:+ k) (base58_Encode b)) /\
  length (createKeys m didID) = size m /\
  NoDup (Key.ID <$> createKeys m didID).
Proof.
  rewrite createKeys_fmap. split; [|split].
  - intros e. rewrite list_elem_of_fmap. split.
    + intros ([k b] & -> & H). rewrite rangeOrder_perm in H.
      apply elem_of_map_to_list in H. by exists k, b.
    + intros (k & b & H & ->). exists (k, b). split; [done|].
      rewrite rangeOrder_perm. by apply elem_of_map_to_list.
  - rewrite length_fmap, rangeOrder_perm. by rewrite <- map_size_list_to_map, list_to_map_to_list
      by apply NoDup_fst_map_to_list.
  - rewrite <- list_fmap_compose.
    assert ((Key.ID ∘ (fun kv : string * bytes =>
                         Key.mk (didID +:+ "#" +:+ kv.1) (base58_Encode kv.2))) <$> rangeOrder m
            = (fun k => didID +:+ "#" +:+ k) <$> (fst <$> rangeOrder m)) as ->.
    { by rewrite <- list_fmap_compose. }
    apply NoDup_fmap_2.
    + intros x y H. by do 2 apply append_inj_r in H.
    + rewrite rangeOrder_perm. apply NoDup_fst_map_to_list.
Qed.

End Flags.

(** X11.  A recovery or update key is never turned into a JWK or a
    verification method: a turn of the loop on it is the same for any two
    implementations of the libraries that agree on the base64 decoder and
    on the point decoder, whatever their JWK and verification-method
    constructors do. *)
Theorem flagged_key_skips_jwk {JWK1 JWK2 VM : Type}
    (L1 : GoLibs JWK1 VM) (L2 : GoLibs JWK2 VM) (v : PublicKey.t) (a : Draft.t VM) :
  (forall s, base64_DecodeString (GoLibs := L1) s = base64_DecodeString (GoLibs := L2) s) ->
  (forall c b, elliptic_Unmarshal (GoLibs := L1) c b = elliptic_Unmarshal (GoLibs := L2) c b) ->
  PublicKey.Recovery v = true \/ PublicKey.Update v = true ->
  addPublicKey (L := L1) v a = addPublicKey (L := L2) v a.
Proof.
  intros Hb Hu Hflag. apply ordinary_false in Hflag.
  rewrite !addPublicKey_flagged by done.
  assert (keyOf (L := L1) v = keyOf (L := L2) v) as ->; [|done].
  unfold keyOf, getKey. rewrite Hb.
  destruct (base64_DecodeString _) as [keyValue|e]; [|done].
  by rewrite Hu.
Qed.

(** ** The resolution handler *)

Section Resolution.
Context {JWK VM : Type} {L : GoLibs JWK VM}.
Implicit Types (o : Operation.t VM) (rw : http.ResponseWriter) (req : http.Request).

(** X17.  The resolution handler leaves the backend alone exactly when
    the query has no [did] parameter or the first value of the parameter
    is empty, and it then answers with status 400 and the text "url param
    'did' is missing", whatever the backend. *)
Theorem resolve_without_did o rw req :
  ((resolveDIDHandler o rw req).2 = [] <->
   http.queryValues "did" req = [] \/ exists rest, http.queryValues "did" req = "" :: rest) /\
  ((resolveDIDHandler o rw req).2 = [] ->
   resolveDIDHandler o rw req =
   (writeErrorResponse rw http.StatusBadRequest "url param 'did' is missing", [])).
Proof.
  unfold resolveDIDHandler.
  destruct (http.queryValues "did" req) as [|didParam0 rest].
  { split; [split; [intros _; by left | done] | done]. }
  destruct (String.eqb_spec didParam0 "") as [->|Hne].
  { split; [split; [intros _; right; by exists rest | done] | done]. }
  assert (Hno : ~ (didParam0 :: rest = [] \/ exists rest0, didParam0 :: rest = "" :: rest0)).
  { intros [H|[rest0 H]]; [discriminate | by injection H]. }
  destruct (VDR.Read _ _) as [res|e]; [destruct (DocResolution_JSONBytes res)|];
    simpl; (split; [split; [discriminate | done] | discriminate]).
Qed.

(** X18.  On a writer without a status the resolution handler answers
    with status 200 exactly when the first value of the [did] parameter
    is not empty, the backend resolves it and the resolution serializes;
    the answer then is the serialized bytes, with the content type
    application/did+ld+json. *)
Theorem resolve_success_iff o req :
  (http.status (resolveDIDHandler o http.fresh req).1 = Some 200 <->
   exists didParam0 rest res b,
     http.queryValues "did" req = didParam0 :: rest /\
     didParam0 <> "" /\
     VDR.Read (Operation.blocVDRI o) didParam0 = Ok res /\
     DocResolution_JSONBytes res = Ok b) /\
  (forall didParam0 rest res b,
     http.queryValues "did" req = didParam0 :: rest ->
     didParam0 <> "" ->
     VDR.Read (Operation.blocVDRI o) didParam0 = Ok res ->
     DocResolution_JSONBytes res = Ok b ->
     resolveDIDHandler o http.fresh req =
     (http.mkResponseWriter (Some 200) [("Content-Type", "application/did+ld+json")]
        [http.Raw b],
      [VDR.ReadCall didParam0])).
Proof.
  unfold resolveDIDHandler. split.
  - destruct (http.queryValues "did" req) as [|didParam0 rest].
    { split; [discriminate | by intros (? & ? & ? & ? & [=] & _)]. }
    destruct (String.eqb_spec didParam0 "") as [->|Hne].
    { split; [discriminate | by intros (? & ? & ? & ? & [= <- <-] & ? & _)]. }
    destruct (VDR.Read _ didParam0) as [res|e] eqn:Er.
    2:{ split; [discriminate|]. intros (? & ? & ? & ? & [= <- <-] & _ & Hr & _). congruence. }
    destruct (DocResolution_JSONBytes res) as [b|e] eqn:Ej.
    + split; [intros _; by exists didParam0, rest, res, b | done].
    + split; [discriminate|].
      intros (? & ? & res' & ? & [= <- <-] & _ & Hr & Hj). congruence.
  - intros didParam0 rest res b -> Hne Hr Hj.
    destruct (String.eqb_spec didParam0 ""); [done|]. by rewrite Hr, Hj.
Qed.

(** X19.  The resolution handler calls the backend at most once, to read
    the first value of the [did] parameter, which is not empty; further
    values of the parameter are not looked at, and the handler never
    creates a document. *)
Theorem resolve_reads_first_did_once o rw req c :
  c ∈ (resolveDIDHandler o rw req).2 ->
  exists didParam0 rest,
    http.queryValues "did" req = didParam0 :: rest /\
    didParam0 <> "" /\
    (resolveDIDHandler o rw req).2 = [VDR.ReadCall didParam0].
Proof.
  unfold resolveDIDHandler.
  destruct (http.queryValues "did" req) as [|didParam0 rest]; [intros H; inversion H|].
  destruct (String.eqb_spec didParam0 "") as [->|Hne]; [intros H; inversion H|].
  intros _. exists didParam0, rest. split; [done|]. split; [done|].
  destruct (VDR.Read _ _) as [res|e]; [by destruct (DocResolution_JSONBytes res) | done].
Qed.

End Resolution.

(** * The claims on concrete requests *)

#[local] Existing Instance Ref.libs.

(** C7 on the request without keys, on a writer nothing was written to:
    status 200, no header, and the failure record as the one JSON value of
    the body. *)
Lemma empty_publicKeys_fails_witness :
  Sample.run Sample.accepting [] =
  (http.mkResponseWriter (Some 200) []
     [http.JSON
        (RegisterResponse.mk "j1"
           (DIDState.mk "" "AddPublicKeys is empty" RegistrationStateFailure
              (Secret.mk [])))],
   []).
Proof.
  exact (empty_publicKeys_fails Sample.accepting http.fresh
           (Ref.post (Sample.request [])) (Sample.request []) eq_refl eq_refl).
Defined.

(** C9 on a mode that is none of the three. *)
Lemma GetRESTHandlers_modes_witness :
  GetRESTHandlers Sample.accepting "admin" = Err "invalid operation mode: admin".
Proof.
  apply (proj2 (proj2 (proj2 (GetRESTHandlers_modes Sample.accepting))) "admin");
    discriminate.
Defined.

(** C8 as the specification states it fails on a request with one valid
    key and a backend that rejects it with the error "boom": the handler
    reaches the create call, the backend returns the error, and the reason
    written is not "failed to create did doc: boom". *)
Lemma create_error_reported_counterexample :
  (exists d opts,
     (Sample.run Sample.rejecting [Sample.ed1]).2 = [VDR.CreateCall d opts] /\
     VDR.Create (Operation.blocVDRI Sample.rejecting) d opts = Err "boom") /\
  (Sample.run Sample.rejecting [Sample.ed1]).1 <>
    writeResponse http.fresh (failed "j1" ("failed to create did doc: " +:+ "boom")).
Proof.
  split.
  - eexists _, _. split; [vm_compute; reflexivity | reflexivity].
  - vm_compute. discriminate.
Qed.

(** C8, amended, on the same request. *)
Lemma create_error_reported_witness :
  (Sample.run Sample.rejecting [Sample.ed1]).1 =
    writeResponse http.fresh (failed "j1" "failed to create did doc : boom") /\
  http.status (Sample.run Sample.rejecting [Sample.ed1]).1 = Some 200.
Proof.
  edestruct (create_error_reported Sample.rejecting http.fresh
               (Ref.post (Sample.request [Sample.ed1])))
    as (data & Eb & Hr & Hs); [vm_compute; reflexivity | reflexivity |].
  injection Eb as <-. split; [exact Hr | exact (Hs eq_refl)].
Defined.

(** C1 as the specification states it fails on a request with two
    ordinary keys that declare the same id: the backend accepts the
    document, both keys are ordinary, and the bundle holds one entry, that
    of the second key; the entry of the first key is not in it. *)
Lemma finished_secret_bundle_counterexample :
  filter (fun v => ordinary v = true) [Sample.ed1; Sample.ed1b] = [Sample.ed1; Sample.ed1b] /\
  (exists d opts res,
     (Sample.run Sample.accepting [Sample.ed1; Sample.ed1b]).2 = [VDR.CreateCall d opts] /\
     VDR.Create (Operation.blocVDRI Sample.accepting) d opts = Ok res /\
     did.Doc.ID (did.DocResolution.DIDDocument res) = Sample.didID) /\
  (Sample.run Sample.accepting [Sample.ed1; Sample.ed1b]).1 =
    writeResponse http.fresh
      (finished "j1" Sample.didID [secretOf Sample.didID Sample.ed1b]) /\
  secretOf Sample.didID Sample.ed1 ∉ [secretOf Sample.didID Sample.ed1b].
Proof.
  split; [reflexivity|]. split; [|split].
  - eexists _, _, _. split; [vm_compute; reflexivity|]. split; reflexivity.
  - vm_compute. reflexivity.
  - intros H. apply list_elem_of_singleton in H. vm_compute in H. discriminate.
Qed.

(** C1, amended, on a request whose ordinary keys declare distinct ids. *)
Lemma finished_secret_bundle_witness :
  exists keys,
    (Sample.run Sample.accepting [Sample.ed1; Sample.recoveryKey; Sample.ed2]).1 =
      writeResponse http.fresh (finished "j1" Sample.didID keys) /\
    keys ≡ₚ [secretOf Sample.didID Sample.ed1; secretOf Sample.didID Sample.ed2].
Proof.
  edestruct (finished_secret_bundle Sample.accepting http.fresh
               (Ref.post (Sample.request [Sample.ed1; Sample.recoveryKey; Sample.ed2])))
    as (data & keys & Eb & Hr & _ & _ & Hn); [vm_compute; reflexivity | reflexivity |].
  injection Eb as <-. exists keys. split; [exact Hr|].
  apply Hn. compute_done.
Defined.

(** C10 on a request whose first and third keys declare the id [k1]. *)
Lemma duplicate_id_last_wins_witness :
  exists keys,
    (Sample.run Sample.accepting
       [Sample.ed1; Sample.ed2; Sample.ed1b; Sample.recoveryKey]).1 =
      writeResponse http.fresh (finished "j1" Sample.didID keys) /\
    filter (fun e => Key.ID e = "did:example:abc#k1") keys =
      [Key.mk "did:example:abc#k1" "1"].
Proof.
  edestruct (duplicate_id_last_wins Sample.accepting http.fresh
               (Ref.post (Sample.request
                  [Sample.ed1; Sample.ed2; Sample.ed1b; Sample.recoveryKey]))
               (Sample.request [Sample.ed1; Sample.ed2; Sample.ed1b; Sample.recoveryKey])
               [] Sample.ed1 [Sample.ed2] Sample.ed1b [Sample.recoveryKey])
    as (keys & Hr & Hf & _);
    [reflexivity | reflexivity | reflexivity | reflexivity | reflexivity | |
     vm_compute; reflexivity | reflexivity |].
  - intros w Hw Ho. apply list_elem_of_singleton in Hw as ->. discriminate Ho.
  - exists keys. split; [exact Hr | exact Hf].
Defined.

(** The order of the bundle follows the order in which the runtime visits
    the tracked map: the two runtimes of the reference collaborators give
    the two orders of a bundle of two entries. *)
Example bundle_order_follows_range :
  let m : gmap string bytes := <["k2" := ["002"%byte]]> (<["k1" := ["001"%byte]]> ∅) in
  createKeys (L := Ref.libs) m Sample.didID =
  reverse (createKeys (L := Ref.libsReversed) m Sample.didID) /\
  createKeys (L := Ref.libs) m Sample.didID <>
  createKeys (L := Ref.libsReversed) m Sample.didID.
Proof. split; [vm_compute; reflexivity | vm_compute; discriminate]. Qed.

(** C3 on a request with a recovery key between two ordinary keys: the
    backend gets the document of the two ordinary keys and the recovery
    key as its one option. *)
Lemma flagged_key_is_option_only_witness :
  exists k a0,
    getKey (PublicKey.KeyType Sample.recoveryKey) (rawBytes Sample.recoveryKey) = Ok k /\
    addPublicKeys [Sample.ed1; Sample.ed2] Draft.init = Ok a0 /\
    (Sample.run Sample.accepting [Sample.ed1; Sample.recoveryKey; Sample.ed2]).2 =
      [VDR.CreateCall (addServices [Sample.service] (Draft.didDoc a0))
         [vdr.WithOption trustbloc.RecoveryPublicKeyOpt k]].
Proof.
  eassert (Hc : (Sample.run Sample.accepting
                   [Sample.ed1; Sample.recoveryKey; Sample.ed2]).2 = [VDR.CreateCall _ _])
    by (vm_compute; reflexivity).
  destruct (flagged_key_is_option_only Sample.accepting http.fresh
              (Ref.post (Sample.request [Sample.ed1; Sample.recoveryKey; Sample.ed2]))
              (Sample.request [Sample.ed1; Sample.recoveryKey; Sample.ed2])
              [Sample.ed1] Sample.recoveryKey [Sample.ed2] _ _
              eq_refl eq_refl (or_introl eq_refl) Hc)
    as (k & a0 & _ & Hg & _ & Ho & Ha & Hd & _ & _).
  exists k, a0. split; [exact Hg|]. split; [exact Ha|].
  rewrite Hc. f_equal. f_equal; [exact Hd | exact Ho].
Defined.

(** The update flag gives the update option, and the recovery flag is
    looked at first: an entry with both flags is the recovery key only. *)
Example update_and_recovery_options :
  exists d,
    (Sample.run Sample.accepting [Sample.ed1; Sample.updateKey; Sample.bothFlags]).2 =
    [VDR.CreateCall d
       [vdr.WithOption trustbloc.UpdatePublicKeyOpt (Ed25519PublicKey ["000"%byte]);
        vdr.WithOption trustbloc.RecoveryPublicKeyOpt (Ed25519PublicKey ["000"%byte])]].
Proof. eexists. vm_compute. reflexivity. Qed.



(** The purposes of an entry arrive as a sequence: a tag listed twice
    gives two references in its bucket. *)
Example repeated_purpose_two_references :
  exists vm d opts,
    methodOf Sample.ed3 = Ok vm /\
    (Sample.run Sample.accepting [Sample.ed3]).2 = [VDR.CreateCall d opts] /\
    did.Doc.Authentication d =
      [did.Verification.mk vm did.Authentication false;
       did.Verification.mk vm did.Authentication false].
Proof. eexists _, _, _. split; [reflexivity|]. split; vm_compute; reflexivity. Qed.

(** C5 as the specification states it fails on a request whose one key
    is ordinary, declares the unsupported purpose signing and is of the
    unknown type RSA: the key type is looked at before the purposes, and
    the reason is that of the key type. *)
Lemma unsupported_purpose_fails_counterexample :
  ordinary Sample.rsaSigning = true /\
  ("signing" ∈ PublicKey.Purposes Sample.rsaSigning) /\
  ("signing" ∉ recognized) /\
  Sample.run Sample.accepting [Sample.rsaSigning] =
    (writeResponse http.fresh (failed "j1" "invalid key type: RSA"), []) /\
  Sample.run Sample.accepting [Sample.rsaSigning] <>
    (writeResponse http.fresh (failed "j1" "public key purpose signing not supported"), []).
Proof.
  split; [reflexivity|]. split; [compute_done|]. split; [compute_done|].
  split; [vm_compute; reflexivity | vm_compute; discriminate].
Qed.

(** C5, amended, on a request whose second key declares the purposes
    authentication, signing and sealing. *)
Lemma unsupported_purpose_fails_witness :
  Sample.run Sample.accepting [Sample.ed1; Sample.signingKey; Sample.rsaKey] =
  (writeResponse http.fresh (failed "j1" "public key purpose signing not supported"), []).
Proof.
  apply (proj1 (proj2
           (unsupported_purpose_fails Sample.accepting http.fresh
              (Ref.post (Sample.request [Sample.ed1; Sample.signingKey; Sample.rsaKey]))
              (Sample.request [Sample.ed1; Sample.signingKey; Sample.rsaKey])
              [Sample.ed1] Sample.signingKey [Sample.rsaKey] "signing"
              eq_refl eq_refl eq_refl eq_refl ltac:(compute_done) ltac:(compute_done)))
           ["authentication"] ["sealing"]).
  - eexists. vm_compute. reflexivity.
  - eexists. vm_compute. reflexivity.
  - reflexivity.
  - compute_done.
Defined.

(** C6 as the specification states it fails on a request whose second
    key is of the unknown type RSA and whose first key declares an
    unsupported purpose: the loop stops at the first key, and the reason
    is that of the purpose. *)
Lemma invalid_key_type_fails_counterexample :
  PublicKey.KeyType Sample.rsaKey <> Ed25519KeyType /\
  PublicKey.KeyType Sample.rsaKey <> P256KeyType /\
  Sample.run Sample.accepting [Sample.signingKey; Sample.rsaKey] =
    (writeResponse http.fresh (failed "j1" "public key purpose signing not supported"), []) /\
  Sample.run Sample.accepting [Sample.signingKey; Sample.rsaKey] <>
    (writeResponse http.fresh (failed "j1" "invalid key type: RSA"), []).
Proof.
  split; [discriminate|]. split; [discriminate|].
  split; [vm_compute; reflexivity | vm_compute; discriminate].
Qed.

(** C6, amended, on a request whose second key is of type RSA. *)
Lemma invalid_key_type_fails_witness :
  Sample.run Sample.accepting [Sample.ed1; Sample.rsaKey; Sample.ed2] =
  (writeResponse http.fresh (failed "j1" "invalid key type: RSA"), []).
Proof.
  apply (proj1 (proj2
           (invalid_key_type_fails Sample.accepting http.fresh
              (Ref.post (Sample.request [Sample.ed1; Sample.rsaKey; Sample.ed2]))
              (Sample.request [Sample.ed1; Sample.rsaKey; Sample.ed2])
              [Sample.ed1] Sample.rsaKey [Sample.ed2]
              eq_refl eq_refl ltac:(discriminate) ltac:(discriminate)))).
  - eexists. vm_compute. reflexivity.
  - eexists. vm_compute. reflexivity.
Defined.

(** The value of an entry is decoded before its key type is looked at: a
    key of an unknown type whose value is not base64 text fails the
    request with the reason of the base64 decoder. *)
Example undecodable_value_before_key_type :
  Sample.run Sample.accepting [Sample.rsaGarbled] =
    (writeResponse http.fresh
       (failed "j1" ("failed to decode public key value : " +:+ Ref.illegalBase64)), []).
Proof. vm_compute. reflexivity. Qed.

(** C2 on a request whose first entry is a recovery key of type
    [P256KeyType] with the single zero byte as its value, followed by one
    valid Ed25519 key: the point decoder gives no coordinates for the
    byte, decoding succeeds all the same, the backend gets the key without
    coordinates as the recovery option, and the registration finishes. *)
Lemma getKey_P256_accepts_invalid_point_witness :
  PublicKey.KeyType Sample.p256Recovery = P256KeyType /\
  base64_DecodeString (PublicKey.Value Sample.p256Recovery) = Ok ["000"%byte] /\
  elliptic_Unmarshal P256 ["000"%byte] = (None, None) /\
  getKey P256KeyType ["000"%byte] = Ok (ECDSAPublicKey None None P256) /\
  exists d,
    Sample.run Sample.accepting [Sample.p256Recovery; Sample.ed1] =
    (http.mkResponseWriter (Some 200) []
       [http.JSON
          (RegisterResponse.mk "j1"
             (DIDState.mk Sample.didID "" RegistrationStateFinished
                (Secret.mk [secretOf Sample.didID Sample.ed1])))],
     [VDR.CreateCall d
        [vdr.WithOption trustbloc.RecoveryPublicKeyOpt (ECDSAPublicKey None None P256)]]).
Proof.
  destruct (getKey_P256_accepts_invalid_point (L := Ref.libs) Sample.accepting http.fresh
              (Ref.post (Sample.request [Sample.p256Recovery; Sample.ed1]))
              (Sample.request [Sample.p256Recovery; Sample.ed1])
              [] Sample.p256Recovery [Sample.ed1] ["000"%byte]
              eq_refl eq_refl eq_refl eq_refl eq_refl eq_refl
              ltac:(vm_compute; eexists; reflexivity))
    as (_ & Hg & d & opts & Hc & Ho & Hfin).
  split; [reflexivity|]. split; [reflexivity|]. split; [reflexivity|].
  split; [exact Hg|].
  exists d.
  rewrite (surjective_pairing (Sample.run Sample.accepting [Sample.p256Recovery; Sample.ed1])).
  apply pair_equal_spec. split.
  - etransitivity; [apply Hfin; reflexivity|]. vm_compute. reflexivity.
  - etransitivity; [exact Hc|]. by rewrite Ho.
Defined.

(** The scenario of the specification: one Ed25519 key of 32 bytes with
    the purpose authentication, a backend that names the document
    [did:example:abc]. *)
Example concrete_scenario :
  (Sample.run Sample.accepting [Sample.ed1]).1 =
  http.mkResponseWriter (Some 200) []
    [http.JSON
       (RegisterResponse.mk "j1"
          (DIDState.mk "did:example:abc" "" RegistrationStateFinished
             (Secret.mk
                [Key.mk "did:example:abc#k1"
                   "4wBqpZM9xaSheZzJSMawUKKwhdpChKbZ5eu5ky4Vigw"])))].
Proof. vm_compute. reflexivity. Qed.

(** * The properties beyond the claims on concrete requests *)

(** X2 on a request the backend accepts: the answer is the finished one. *)
Lemma register_no_partial_result_witness :
  exists keys,
    (Sample.run Sample.accepting [Sample.ed1]).1 =
    writeResponse http.fresh
      (RegisterResponse.mk "j1"
         (DIDState.mk Sample.didID "" RegistrationStateFinished (Secret.mk keys))).
Proof.
  destruct (register_no_partial_result Sample.accepting http.fresh
              (Ref.post (Sample.request [Sample.ed1])) (Sample.request [Sample.ed1]) eq_refl)
    as [(reason & Hr & _)|(d & opts & res & keys & _ & He & Hr)].
  - vm_compute in Hr. discriminate Hr.
  - injection He as <-. exists keys. exact Hr.
Defined.

(** X4 on a request whose second key has a value that is not base64
    text, before a key of an unknown type. *)
Lemma first_failing_entry_gives_reason_witness :
  Sample.run Sample.accepting [Sample.ed1; Sample2.garbled; Sample.rsaKey] =
  (writeResponse http.fresh
     (failed "j1" ("failed to decode public key value : " +:+ Ref.illegalBase64)), []).
Proof.
  apply (first_failing_entry_gives_reason Sample.accepting http.fresh
           (Ref.post (Sample.request [Sample.ed1; Sample2.garbled; Sample.rsaKey]))
           (Sample.request [Sample.ed1; Sample2.garbled; Sample.rsaKey])
           [Sample.ed1] Sample2.garbled [Sample.rsaKey]).
  - reflexivity.
  - reflexivity.
  - constructor; [eexists; vm_compute; reflexivity | constructor].
  - vm_compute. reflexivity.
Defined.

(** X5 on the key whose value is not base64 text. *)
Lemma entry_failure_reasons_witness :
  exists e0,
    base64_DecodeString (PublicKey.Value Sample2.garbled) = Err e0 /\
    "failed to decode public key value : " +:+ Ref.illegalBase64 =
    "failed to decode public key value : " +:+ e0.
Proof.
  assert (H : addPublicKey Sample2.garbled (@Draft.init Ref.VerificationMethod) =
              Err ("failed to decode public key value : " +:+ Ref.illegalBase64))
    by (vm_compute; reflexivity).
  destruct (entry_failure_reasons Sample2.garbled Draft.init _ H)
    as [H1|[(kv & Hb & _)|[(k & _ & Hk & _)|[(k & jwk & _ & Hk & _)|(vm & t & _ & Hvm & _)]]]].
  - exact H1.
  - vm_compute in Hb. discriminate Hb.
  - vm_compute in Hk. discriminate Hk.
  - vm_compute in Hk. discriminate Hk.
  - vm_compute in Hvm. discriminate Hvm.
Defined.

(** X6 on a request with one service. *)
Lemma submitted_services_verbatim_witness :
  exists d opts,
    (Sample.run Sample.accepting [Sample.ed1]).2 = [VDR.CreateCall d opts] /\
    did.Doc.Service d = [didService Sample.service] /\
    did.Doc.ID d = "".
Proof.
  eassert (Hc : (Sample.run Sample.accepting [Sample.ed1]).2 = [VDR.CreateCall _ _])
    by (vm_compute; reflexivity).
  destruct (submitted_services_verbatim Sample.accepting http.fresh
              (Ref.post (Sample.request [Sample.ed1])) _ _ Hc)
    as (data & Eb & Hs & Hi & _).
  injection Eb as <-. eexists _, _. split; [exact Hc|]. split; [exact Hs | exact Hi].
Defined.

(** X7 on a request with a recovery key between two ordinary keys. *)
Lemma submitted_buckets_in_submission_order_witness :
  exists d opts,
    (Sample.run Sample.accepting [Sample.ed1; Sample.recoveryKey; Sample.ed2]).2 =
      [VDR.CreateCall d opts] /\
    did.Doc.Authentication d =
      keyRefs did.Authentication Sample.ed1 ++ keyRefs did.Authentication Sample.ed2.
Proof.
  eassert (Hc : (Sample.run Sample.accepting
                   [Sample.ed1; Sample.recoveryKey; Sample.ed2]).2 = [VDR.CreateCall _ _])
    by (vm_compute; reflexivity).
  destruct (submitted_buckets_in_submission_order Sample.accepting http.fresh
              (Ref.post (Sample.request [Sample.ed1; Sample.recoveryKey; Sample.ed2])) _ _ Hc)
    as (data & Eb & Hb & _).
  injection Eb as <-. eexists _, _. split; [exact Hc|]. exact (Hb did.Authentication).
Defined.

(** X8 on the one entry of the authentication bucket of a request with
    one key. *)
Lemma bucket_entries_are_references_witness :
  exists d opts x,
    (Sample.run Sample.accepting [Sample.ed1]).2 = [VDR.CreateCall d opts] /\
    did.Doc.Authentication d = [x] /\
    did.Verification.Relationship x = did.Authentication /\
    did.Verification.Embedded x = false /\
    methodOf Sample.ed1 = Ok (did.Verification.VerificationMethod x).
Proof.
  eassert (Hc : (Sample.run Sample.accepting [Sample.ed1]).2 = [VDR.CreateCall _ _])
    by (vm_compute; reflexivity).
  eexists _, _, _. split; [exact Hc|]. split; [reflexivity|].
  lazymatch goal with
  | |- did.Verification.Relationship ?x = _ /\ _ =>
    destruct (bucket_entries_are_references Sample.accepting http.fresh
                (Ref.post (Sample.request [Sample.ed1])) _ _ did.Authentication x Hc)
      as (Hr & He & _); [left|]
  end.
  split; [exact Hr|]. split; [exact He | reflexivity].
Defined.

(** X9 on a request with an update key and a key with both flags. *)
Lemma submitted_options_in_submission_order_witness :
  exists d opts,
    (Sample.run Sample.accepting [Sample.ed1; Sample.updateKey; Sample.bothFlags]).2 =
      [VDR.CreateCall d opts] /\
    length opts = 2.
Proof.
  eassert (Hc : (Sample.run Sample.accepting
                   [Sample.ed1; Sample.updateKey; Sample.bothFlags]).2 = [VDR.CreateCall _ _])
    by (vm_compute; reflexivity).
  destruct (submitted_options_in_submission_order Sample.accepting http.fresh
              (Ref.post (Sample.request [Sample.ed1; Sample.updateKey; Sample.bothFlags]))
              _ _ Hc)
    as (data & Eb & _ & Hl & _).
  injection Eb as <-. eexists _, _. split; [exact Hc | exact Hl].
Defined.

(** X14 on a request with a recovery key and an update key only. *)
Lemma only_flagged_keys_witness :
  (Sample.run Sample.accepting [Sample.recoveryKey; Sample.updateKey]).1 =
  writeResponse http.fresh (finished "j1" Sample.didID []).
Proof.
  eassert (Hc : (Sample.run Sample.accepting
                   [Sample.recoveryKey; Sample.updateKey]).2 = [VDR.CreateCall _ _])
    by (vm_compute; reflexivity).
  destruct (only_flagged_keys Sample.accepting http.fresh
              (Ref.post (Sample.request [Sample.recoveryKey; Sample.updateKey]))
              (Sample.request [Sample.recoveryKey; Sample.updateKey]) _ _ eq_refl
              ltac:(repeat constructor) Hc)
    as (_ & _ & Hr).
  exact (Hr _ eq_refl).
Defined.

(** X10 on a recovery key, with the unsupported purpose signing in place
    of its purpose. *)
Lemma flagged_key_purposes_ignored_witness :
  Sample.run Sample.accepting [Sample.ed1; Sample2.recoverySigning] =
  Sample.run Sample.accepting [Sample.ed1; Sample.recoveryKey].
Proof.
  apply (flagged_key_purposes_ignored Sample.accepting http.fresh
           (Ref.post (Sample.request [Sample.ed1; Sample.recoveryKey]))
           (Ref.post (Sample.request [Sample.ed1; Sample2.recoverySigning]))
           (Sample.request [Sample.ed1; Sample.recoveryKey])
           (Sample.request [Sample.ed1; Sample2.recoverySigning])
           [Sample.ed1] Sample.recoveryKey [] ["signing"]);
    try reflexivity.
  by left.
Defined.

(** X11 on the P-256 recovery key whose value is not a point, with the
    reference libraries and with a JWK constructor that rejects every
    key. *)
Lemma flagged_key_skips_jwk_witness :
  addPublicKey (L := Ref.libs) Sample.p256Recovery Draft.init =
  addPublicKey (L := Sample2.libsNoJWK) Sample.p256Recovery Draft.init.
Proof.
  apply (flagged_key_skips_jwk Ref.libs Sample2.libsNoJWK Sample.p256Recovery Draft.init).
  - intros s. reflexivity.
  - intros c b. reflexivity.
  - left. reflexivity.
Defined.

(** X12 on a request whose second key is ordinary and has no purposes. *)
Lemma ordinary_key_without_purposes_witness :
  exists d opts keys e,
    (Sample.run Sample.accepting [Sample.ed1; Sample2.bare]).2 = [VDR.CreateCall d opts] /\
    did.Doc.Authentication d = keyRefs did.Authentication Sample.ed1 /\
    (Sample.run Sample.accepting [Sample.ed1; Sample2.bare]).1 =
      writeResponse http.fresh (finished "j1" Sample.didID keys) /\
    e ∈ keys /\
    Key.ID e = "did:example:abc#k7".
Proof.
  eassert (Hc : (Sample.run Sample.accepting [Sample.ed1; Sample2.bare]).2 =
                [VDR.CreateCall _ _])
    by (vm_compute; reflexivity).
  edestruct (ordinary_key_without_purposes Sample.accepting http.fresh
               (Ref.post (Sample.request [Sample.ed1; Sample2.bare]))
               (Sample.request [Sample.ed1; Sample2.bare])
               [Sample.ed1] Sample2.bare [])
    as (Hb & keys & e & Hr & He & Hi);
    [reflexivity | reflexivity | reflexivity | reflexivity | reflexivity | exact Hc |
     reflexivity |].
  eexists _, _, keys, e. split; [exact Hc|]. split; [|split; [exact Hr | split; [exact He | exact Hi]]].
  exact (Hb did.Authentication).
Defined.


(** X17 on a query without a [did] parameter. *)
Lemma resolve_without_did_witness :
  resolveDIDHandler Sample2.resolving http.fresh (Sample2.get [("id", "did:example:abc")]) =
  (http.mkResponseWriter (Some 400) [] [http.Text "url param 'did' is missing"], []).
Proof.
  exact (proj2 (resolve_without_did Sample2.resolving http.fresh
                  (Sample2.get [("id", "did:example:abc")])) eq_refl).
Defined.

(** X18 on a query whose [did] parameter the backend resolves. *)
Lemma resolve_success_iff_witness :
  resolveDIDHandler Sample2.resolving http.fresh (Sample2.get [("did", "did:example:abc")]) =
  (http.mkResponseWriter (Some 200) [("Content-Type", "application/did+ld+json")]
     [http.Raw []],
   [VDR.ReadCall "did:example:abc"]).
Proof.
  eapply (proj2 (resolve_success_iff Sample2.resolving
                   (Sample2.get [("did", "did:example:abc")]))).
  - reflexivity.
  - discriminate.
  - reflexivity.
  - reflexivity.
Defined.

(** X19 on a query with two [did] parameters. *)
Lemma resolve_reads_first_did_once_witness :
  (resolveDIDHandler Sample2.resolving http.fresh
     (Sample2.get [("did", "did:example:abc"); ("did", "did:example:other")])).2 =
  [VDR.ReadCall "did:example:abc"].
Proof.
  edestruct (resolve_reads_first_did_once Sample2.resolving http.fresh
               (Sample2.get [("did", "did:example:abc"); ("did", "did:example:other")])
               (VDR.ReadCall "did:example:abc"))
    as (didParam0 & rest & Hq & _ & Hc); [left|].
  injection Hq as <- _. exact Hc.
Defined.

(** [New] on a configuration with two genesis files: the constructor is
    given six options, and the write token is not among them. *)
Example New_on_sample_configuration :
  vdriOpts Sample2.config =
    [vdropt.WithTLSConfig None;
     vdropt.WithAuthToken "read-token";
     vdropt.EnableSignatureVerification true;
     vdropt.WithDomain "testnet.example.com";
     vdropt.UseGenesisFile "https://a.example.com/genesis" "https://a.example.com/genesis"
       ["001"%byte];
     vdropt.UseGenesisFile "https://b.example.com/genesis" "https://b.example.com/genesis"
       ["002"%byte]] /\
  New Sample2.newRejecting Sample2.config = Err "no endpoints" /\
  New Sample2.newAccepting Sample2.config =
    Ok (Operation.mk (Ref.accepting Sample.didID) "testnet.example.com").
Proof. repeat split. Qed.
